(** * The PDF assistant's client controller (src/app.js)

    A shallow embedding of the React component [App]: its state
    variables, the three handlers [handleFileChange], [handleQuery] and
    [copyToClipboard], the inline click handlers, and the message timer
    installed by [useEffect].

    Handlers never read a state variable after they have written it:
    they read the render's snapshot and enqueue setter calls.  A handler
    is therefore embedded as the list of calls it performs, in program
    order (a trace), and the component's state after the handler is the
    trace replayed on the state.  The two [await] points get their
    result from the environment, which is an argument of the handler. *)

From Stdlib Require Import List Bool Arith ZArith NArith Lia String Ascii.
Import ListNotations.

Set Implicit Arguments.

(** ** JavaScript values *)

(** A JS string is a sequence of UTF-16 code units. *)
Definition jsstring := list N.

Definition lit (s : string) : jsstring :=
  map N_of_ascii (list_ascii_of_string s).

Fixpoint jsstring_eqb (a b : jsstring) : bool :=
  match a, b with
  | [], [] => true
  | x :: a', y :: b' => N.eqb x y && jsstring_eqb a' b'
  | _, _ => false
  end.

(** A slot that holds [undefined], [null] or a value of the expected type. *)
Inductive JsVal (A : Type) : Type :=
| undefined
| null
| val (a : A).
Arguments undefined {A}.
Arguments null {A}.

(** Truthiness: of a string slot (the empty string is falsy) and of an
    object slot (every object is truthy). *)
Definition truthy_str (v : JsVal jsstring) : bool :=
  match v with
  | val (_ :: _) => true
  | _ => false
  end.

Definition truthy_obj (A : Type) (v : JsVal A) : bool :=
  match v with
  | val _ => true
  | _ => false
  end.

(** [a || b] where [b] is a string literal: the value of the expression. *)
Definition or_else (v : JsVal jsstring) (fallback : jsstring) : jsstring :=
  match v with
  | val (c :: s) => c :: s
  | _ => fallback
  end.

(** [String.prototype.trim]: strips WhiteSpace and LineTerminator code
    units (ECMA-262, 12.2 and 12.3) from both ends. *)
Definition is_white (c : N) : bool :=
  existsb (N.eqb c)
    [0x0009; 0x000A; 0x000B; 0x000C; 0x000D; 0x0020; 0x00A0; 0x1680;
     0x2000; 0x2001; 0x2002; 0x2003; 0x2004; 0x2005; 0x2006; 0x2007;
     0x2008; 0x2009; 0x200A; 0x2028; 0x2029; 0x202F; 0x205F; 0x3000;
     0xFEFF]%N.

Fixpoint trim_start (s : jsstring) : jsstring :=
  match s with
  | c :: s' => if is_white c then trim_start s' else s
  | [] => []
  end.

Definition trim (s : jsstring) : jsstring :=
  rev (trim_start (rev (trim_start s))).

(** ** The component's data *)

(** A [File] picked in the dialog or dropped, or the plain object
    [{ name, type }] that the recent list stores in the same slot; only a
    [File] carries bytes. *)
Record PdfFile : Type := {
  file_name : jsstring;
  file_type : jsstring;
  file_bytes : option (list N)
}.

(** An element of [recentPdfs]: [{ id, name }]. *)
Record RecentPdf : Type := {
  pdf_id : Z;
  pdf_name : jsstring
}.

(** [message.type] is one of the strings 'info', 'success', 'error', ''. *)
Inductive MessageType : Type := info | success | error | none.

Record Message : Type := {
  msg_text : JsVal jsstring;
  msg_type : MessageType
}.

Definition no_message : Message := {| msg_text := val []; msg_type := none |}.

(** ** The Recent PDFs list (app.js, lines 44-49) *)

Definition names (l : list RecentPdf) : list jsstring := map pdf_name l.

(** [[newPdf, ...prev.filter(p => p.name !== file.name)].slice(0, 5)],
    with [now] the reading of [Date.now()]. *)
Definition recordSuccess (now : Z) (name : jsstring) (prev : list RecentPdf)
  : list RecentPdf :=
  let newPdf := {| pdf_id := now; pdf_name := name |} in
  let updatedPdfs :=
    firstn 5
      (newPdf :: filter (fun p => negb (jsstring_eqb (pdf_name p) name)) prev) in
  updatedPdfs.

(** What one successful upload preserves: at most five entries, no name
    twice. *)
Definition cache_ok (l : list RecentPdf) : Prop :=
  List.length l <= 5 /\ NoDup (names l).

(** A run of successful uploads, oldest first, from the initial [[]]. *)
Definition recordAll (calls : list (Z * jsstring)) : list RecentPdf :=
  fold_left (fun prev c => recordSuccess (fst c) (snd c) prev) calls [].


(** ** State, requests and traces *)

Definition API_BASE_URL : jsstring := lit "http://localhost:5000".
Definition dquote : jsstring := [34%N].
Definition pdf_mime : jsstring := lit "application/pdf".

(** The body handed to [fetch]: the [FormData] with its 'pdf' field, or
    [JSON.stringify({ query })]. *)
Inductive RequestBody : Type :=
| formData_pdf (file : PdfFile)
| json_query (query : jsstring).

(** What [document.execCommand('copy')] does inside the [try] block: it
    returns [true] when the selection was copied, it returns [false]
    when the command is unsupported or the copy was refused, or it
    throws.  Line 118 discards the value it returns. *)
Inductive CopyOutcome : Type :=
| copy_returned (copied : bool)
| copy_threw.

Section App.

(** The [metrics] member of an /ask_pdf reply.  The component stores
    and displays it and never computes with it. *)
Variable Metrics : Type.

(** The parsed reply body [data], its members typed as the backend
    sends them; a member that is absent reads as [undefined]. *)
Record Data : Type := {
  data_message : JsVal jsstring;
  data_response : JsVal jsstring;
  data_metrics : JsVal Metrics
}.

(** What the environment answers inside a [try] block.  [Threw] is any
    exception raised before the block's first setter call: [fetch]
    rejecting, [response.json()] rejecting, or a member read on a body
    that is not an object; [error.message] is its argument. *)
Inductive Outcome : Type :=
| Threw (error_message : jsstring)
| Replied (ok : bool) (data : Data).

(** The [useState] variables of [App] (lines 6-13). *)
Record State : Type := {
  query : jsstring;
  response : JsVal jsstring;
  loading : bool;
  metrics : JsVal Metrics;
  pdfFile : JsVal PdfFile;
  showUploadModal : bool;
  recentPdfs : list RecentPdf;
  message : Message
}.

Definition initialState : State := {|
  query := [];
  response := val [];
  loading := false;
  metrics := null;
  pdfFile := null;
  showUploadModal := false;
  recentPdfs := [];
  message := no_message
|}.

(** One call made by a handler: a state setter, or a call into the
    browser. *)
Inductive Action : Type :=
| setQuery (v : jsstring)
| setResponse (v : JsVal jsstring)
| setLoading (b : bool)
| setMetrics (v : JsVal Metrics)
| setPdfFile (v : JsVal PdfFile)
| setShowUploadModal (b : bool)
| setRecentPdfs (updater : list RecentPdf -> list RecentPdf)
| setMessage (m : Message)
| fetch (url : jsstring) (body : RequestBody)
| console_error (label : jsstring)
| textarea_select (value : JsVal jsstring)
| execCommand_copy (c : CopyOutcome)
| body_removeChild.

Definition apply (s : State) (a : Action) : State :=
  match a with
  | setQuery v =>
      {| query := v; response := response s; loading := loading s;
         metrics := metrics s; pdfFile := pdfFile s;
         showUploadModal := showUploadModal s; recentPdfs := recentPdfs s;
         message := message s |}
  | setResponse v =>
      {| query := query s; response := v; loading := loading s;
         metrics := metrics s; pdfFile := pdfFile s;
         showUploadModal := showUploadModal s; recentPdfs := recentPdfs s;
         message := message s |}
  | setLoading b =>
      {| query := query s; response := response s; loading := b;
         metrics := metrics s; pdfFile := pdfFile s;
         showUploadModal := showUploadModal s; recentPdfs := recentPdfs s;
         message := message s |}
  | setMetrics v =>
      {| query := query s; response := response s; loading := loading s;
         metrics := v; pdfFile := pdfFile s;
         showUploadModal := showUploadModal s; recentPdfs := recentPdfs s;
         message := message s |}
  | setPdfFile v =>
      {| query := query s; response := response s; loading := loading s;
         metrics := metrics s; pdfFile := v;
         showUploadModal := showUploadModal s; recentPdfs := recentPdfs s;
         message := message s |}
  | setShowUploadModal b =>
      {| query := query s; response := response s; loading := loading s;
         metrics := metrics s; pdfFile := pdfFile s;
         showUploadModal := b; recentPdfs := recentPdfs s;
         message := message s |}
  | setRecentPdfs updater =>
      {| query := query s; response := response s; loading := loading s;
         metrics := metrics s; pdfFile := pdfFile s;
         showUploadModal := showUploadModal s;
         recentPdfs := updater (recentPdfs s);
         message := message s |}
  | setMessage m =>
      {| query := query s; response := response s; loading := loading s;
         metrics := metrics s; pdfFile := pdfFile s;
         showUploadModal := showUploadModal s; recentPdfs := recentPdfs s;
         message := m |}
  | fetch _ _ | console_error _ | textarea_select _ | execCommand_copy _
  | body_removeChild => s
  end.

(** The state once every call of the trace has been made. *)
Definition run (tr : list Action) (s : State) : State := fold_left apply tr s.

Definition is_fetch (a : Action) : bool :=
  match a with fetch _ _ => true | _ => false end.

(** The requests a trace sends. *)
Definition requests (tr : list Action) : list Action := filter is_fetch tr.

(** The calls made before the handler first suspends on [await fetch]. *)
Fixpoint before_fetch (tr : list Action) : list Action :=
  match tr with
  | [] => []
  | a :: tr' => if is_fetch a then [] else a :: before_fetch tr'
  end.

(** The messages a trace shows, in order. *)
Fixpoint notifications (tr : list Action) : list Message :=
  match tr with
  | [] => []
  | setMessage m :: tr' => m :: notifications tr'
  | _ :: tr' => notifications tr'
  end.

(** ** handleFileChange (lines 22-66) *)

Definition handleFileChange
  (files : list PdfFile) (net : Outcome) (now : Z) : list Action :=
  match files with
  | file :: _ =>
      if jsstring_eqb (file_type file) pdf_mime then
        [ setPdfFile (val file);
          setShowUploadModal false;
          setMessage
            {| msg_text :=
                 val (lit "Uploading and processing " ++ dquote
                        ++ file_name file ++ dquote ++ lit "...");
               msg_type := info |};
          setLoading true;
          fetch (API_BASE_URL ++ lit "/upload_pdf") (formData_pdf file) ]
        ++ match net with
           | Replied true data =>
               [ setMessage
                   {| msg_text := data_message data; msg_type := success |};
                 setRecentPdfs (recordSuccess now (file_name file)) ]
           | Replied false data =>
               [ setMessage
                   {| msg_text :=
                        val (lit "Error: "
                               ++ or_else (data_message data)
                                    (lit "Failed to upload PDF."));
                      msg_type := error |};
                 setPdfFile null ]
           | Threw error_message =>
               [ console_error (lit "Network error during PDF upload:");
                 setMessage
                   {| msg_text :=
                        val (lit "Network error: " ++ error_message
                               ++ lit ". Is the backend running?");
                      msg_type := error |};
                 setPdfFile null ]
           end
        ++ [ setLoading false ]
      else
        [ setMessage
            {| msg_text := val (lit "Please select a valid PDF file.");
               msg_type := error |} ]
  | [] =>
      [ setMessage
          {| msg_text := val (lit "Please select a valid PDF file.");
             msg_type := error |} ]
  end.

(** ** handleQuery (lines 69-108) *)

Definition enter_question : Message :=
  {| msg_text := val (lit "Please enter a question."); msg_type := error |}.

Definition upload_first : Message :=
  {| msg_text := val (lit "Please upload a PDF first."); msg_type := error |}.

Definition handleQuery (snap : State) (net : Outcome) : list Action :=
  if negb (truthy_str (val (trim (query snap)))) then
    [ setMessage enter_question ]
  else if negb (truthy_obj (pdfFile snap)) then
    [ setMessage upload_first ]
  else
    [ setLoading true;
      setResponse (val []);
      setMetrics null;
      setMessage no_message;
      fetch (API_BASE_URL ++ lit "/ask_pdf") (json_query (query snap)) ]
    ++ match net with
       | Replied true data =>
           [ setResponse (data_response data);
             setMetrics (data_metrics data);
             setMessage
               {| msg_text := val (lit "Response generated successfully!");
                  msg_type := success |} ]
       | Replied false data =>
           [ setMessage
               {| msg_text :=
                    val (lit "Error: "
                           ++ or_else (data_message data)
                                (lit "Failed to get response."));
                  msg_type := error |} ]
       | Threw error_message =>
           [ console_error (lit "Network error during LLM inference:");
             setMessage
               {| msg_text :=
                    val (lit "Network error: " ++ error_message
                           ++ lit ". Is the backend running?");
                  msg_type := error |} ]
       end
    ++ [ setLoading false ].

(** ** copyToClipboard (lines 111-126) *)

Definition copyToClipboard (snap : State) (c : CopyOutcome) : list Action :=
  if truthy_str (response snap) then
    [ textarea_select (response snap); execCommand_copy c ]
    ++ match c with
       | copy_returned _ =>
           [ setMessage
               {| msg_text := val (lit "Response copied to clipboard!");
                  msg_type := success |} ]
       | copy_threw =>
           [ setMessage
               {| msg_text := val (lit "Failed to copy text.");
                  msg_type := error |};
             console_error (lit "Failed to copy text: ") ]
       end
    ++ [ body_removeChild ]
  else [].

(** The page as far as the copy is concerned: the text selected in the
    temporary textarea and the content of the clipboard.  Only a copy
    command that returns [true] puts the selection on the clipboard. *)
Record Page : Type := {
  selection : option (JsVal jsstring);
  clipboard : JsVal jsstring
}.

Definition page_apply (p : Page) (a : Action) : Page :=
  match a with
  | textarea_select v => {| selection := Some v; clipboard := clipboard p |}
  | execCommand_copy (copy_returned true) =>
      match selection p with
      | Some v => {| selection := selection p; clipboard := v |}
      | None => p
      end
  | body_removeChild => {| selection := None; clipboard := clipboard p |}
  | _ => p
  end.

Definition page_run (tr : list Action) (p : Page) : Page :=
  fold_left page_apply tr p.

(** ** The inline handlers (lines 166, 178, 194-198, 220, 331) *)

Definition onRemoveClick : list Action := [ setPdfFile null ].

Definition onRecentClick (pdf : RecentPdf) : list Action :=
  [ setPdfFile
      (val {| file_name := pdf_name pdf; file_type := pdf_mime;
              file_bytes := None |});
    setMessage
      {| msg_text :=
           val (lit "Loaded " ++ dquote ++ pdf_name pdf ++ dquote
                  ++ lit " from recent files.");
         msg_type := info |} ].

(** Everything that can call a setter: the user's gestures and the
    timer callback of the message effect (line 132). *)
Inductive Operation : Type :=
| op_upload (files : list PdfFile) (net : Outcome) (now : Z)
| op_query (net : Outcome)
| op_copy (c : CopyOutcome)
| op_remove
| op_selectEntry (pdf : RecentPdf)
| op_openModal
| op_closeModal
| op_type (v : jsstring)
| op_messageTimeout.

Definition perform (snap : State) (op : Operation) : list Action :=
  match op with
  | op_upload files net now => handleFileChange files net now
  | op_query net => handleQuery snap net
  | op_copy c => copyToClipboard snap c
  | op_remove => onRemoveClick
  | op_selectEntry pdf => onRecentClick pdf
  | op_openModal => [ setShowUploadModal true ]
  | op_closeModal => [ setShowUploadModal false ]
  | op_type v => [ setQuery v ]
  | op_messageTimeout => [ setMessage no_message ]
  end.

(** The upload handler goes to the network exactly when the first file
    is declared as a PDF. *)
Definition upload_accepts (files : list PdfFile) : bool :=
  match files with
  | file :: _ => jsstring_eqb (file_type file) pdf_mime
  | [] => false
  end.

(** The query handler goes to the network exactly when the trimmed
    question is not empty and a PDF is loaded. *)
Definition query_accepts (snap : State) : bool :=
  truthy_str (val (trim (query snap))) && truthy_obj (pdfFile snap).

Definition sets_pdfFile (a : Action) : bool :=
  match a with setPdfFile _ => true | _ => false end.

(** A session in which each operation runs to completion before the
    next one starts. *)
Definition session (ops : list Operation) (s : State) : State :=
  fold_left (fun s op => run (perform s op) s) ops s.

(** No operation of the session sends a request: each is a click on
    remove, on a recent entry or on a dialog button, a copy, typing, the
    message timer, or an upload or a query that its handler rejects. *)
Fixpoint session_quiet (ops : list Operation) (s : State) : bool :=
  match ops with
  | [] => true
  | op :: ops' =>
      match requests (perform s op) with
      | [] => session_quiet ops' (run (perform s op) s)
      | _ :: _ => false
      end
  end.

(** The calls made once the awaited request has settled. *)
Fixpoint after_fetch (tr : list Action) : list Action :=
  match tr with
  | [] => []
  | a :: tr' => if is_fetch a then tr' else after_fetch tr'
  end.

(** ** What the render derives from the state *)

(** [disabled={loading || !pdfFile}] on the question box and on the
    Get Answer button (lines 221 and 225). *)
Definition ask_disabled (s : State) : bool :=
  loading s || negb (truthy_obj (pdfFile s)).

(** [{response && (...)}]: the answer section with its Copy Response
    button (line 250); [{metrics && (...)}] (line 270);
    [{message.text && (...)}] (line 294). *)
Definition shows_response (s : State) : bool := truthy_str (response s).
Definition shows_metrics (s : State) : bool := truthy_obj (metrics s).
Definition shows_message (s : State) : bool :=
  truthy_str (msg_text (message s)).

End App.

Arguments Threw {Metrics}.
Arguments setQuery {Metrics}.
Arguments setResponse {Metrics}.
Arguments setLoading {Metrics}.
Arguments setPdfFile {Metrics}.
Arguments setShowUploadModal {Metrics}.
Arguments setRecentPdfs {Metrics}.
Arguments setMessage {Metrics}.
Arguments fetch {Metrics}.
Arguments console_error {Metrics}.
Arguments textarea_select {Metrics}.
Arguments execCommand_copy {Metrics}.
Arguments body_removeChild {Metrics}.
Arguments onRemoveClick {Metrics}.
Arguments onRecentClick {Metrics}.
Arguments op_copy {Metrics}.
Arguments op_remove {Metrics}.
Arguments op_selectEntry {Metrics}.
Arguments op_openModal {Metrics}.
Arguments op_closeModal {Metrics}.
Arguments op_type {Metrics}.
Arguments op_messageTimeout {Metrics}.
Arguments lit : simpl never.

(** ** The message timer (lines 129-136)

    [useEffect(..., [message])]: every [setMessage] call of the
    component passes a fresh object literal, so each committed message
    differs from the previous one and React runs the previous effect's
    cleanup (when it returned one) and then the effect again.  Time is
    the browser's clock in milliseconds; a timer's callback runs when
    the clock reaches the time it is due. *)

Record Timer : Type := {
  timer_id : nat;
  timer_due : N
}.

Record Notifier : Type := {
  clock : N;
  shown : Message;                (* the committed [message] *)
  pending : list Timer;           (* the browser's timer table *)
  next_timer : nat;               (* the next handle [setTimeout] returns *)
  cleanup : option nat            (* [timer] captured by the last cleanup *)
}.

Definition mounted (t0 : N) : Notifier :=
  {| clock := t0; shown := no_message; pending := []; next_timer := 0;
     cleanup := None |}.

Definition setTimeout (delay : N) (s : Notifier) : nat * Notifier :=
  (next_timer s,
   {| clock := clock s; shown := shown s;
      pending := pending s
                 ++ [{| timer_id := next_timer s;
                        timer_due := clock s + delay |}];
      next_timer := S (next_timer s);
      cleanup := cleanup s |}).

Definition clearTimeout (id : nat) (s : Notifier) : Notifier :=
  {| clock := clock s; shown := shown s;
     pending := filter (fun t => negb (Nat.eqb (timer_id t) id)) (pending s);
     next_timer := next_timer s;
     cleanup := cleanup s |}.

Definition with_cleanup (c : option nat) (s : Notifier) : Notifier :=
  {| clock := clock s; shown := shown s; pending := pending s;
     next_timer := next_timer s; cleanup := c |}.

(** The effect's body. *)
Definition message_effect (s : Notifier) : Notifier :=
  if truthy_str (msg_text (shown s)) then
    let (timer, s') := setTimeout 5000 s in
    with_cleanup (Some timer) s'
  else with_cleanup None s.

(** A [setMessage m] is committed. *)
Definition commit (m : Message) (s : Notifier) : Notifier :=
  let s1 := match cleanup s with
            | Some timer => clearTimeout timer s
            | None => s
            end in
  message_effect
    {| clock := clock s1; shown := m; pending := pending s1;
       next_timer := next_timer s1; cleanup := cleanup s1 |}.

(** The pending timer that is due first, among those due by [target]. *)
Fixpoint first_due (target : N) (l : list Timer) : option Timer :=
  match l with
  | [] => None
  | t :: l' =>
      match first_due target l' with
      | Some u => if (timer_due t <=? timer_due u)%N
                  then (if (timer_due t <=? target)%N then Some t else Some u)
                  else Some u
      | None => if (timer_due t <=? target)%N then Some t else None
      end
  end.

(** Timer [t] fires: it leaves the table, the clock shows its due time,
    and its callback calls [setMessage({ text: '', type: '' })]. *)
Definition fire (t : Timer) (s : Notifier) : Notifier :=
  commit no_message
    {| clock := N.max (clock s) (timer_due t); shown := shown s;
       pending := filter (fun u => negb (Nat.eqb (timer_id u) (timer_id t)))
                    (pending s);
       next_timer := next_timer s; cleanup := cleanup s |}.

Fixpoint advance (fuel : nat) (target : N) (s : Notifier) : Notifier :=
  match fuel with
  | O => s
  | S fuel' =>
      match first_due target (pending s) with
      | Some t => advance fuel' target (fire t s)
      | None => s
      end
  end.

(** [d] milliseconds pass.  A callback never schedules a timer, so one
    round per pending timer is enough. *)
Definition elapse (d : N) (s : Notifier) : Notifier :=
  let target := (clock s + d)%N in
  let s' := advance (List.length (pending s)) target s in
  {| clock := target; shown := shown s'; pending := pending s';
     next_timer := next_timer s'; cleanup := cleanup s' |}.

Inductive Tick : Type :=
| notify (m : Message)
| wait (d : N).

Definition tick (s : Notifier) (e : Tick) : Notifier :=
  match e with
  | notify m => commit m s
  | wait d => elapse d s
  end.

Definition ticks (es : list Tick) (s : Notifier) : Notifier :=
  fold_left tick es s.

(** What holds between two events: the timer table is empty, or it
    holds the one timer that the last cleanup would clear, not yet due
    and with a handle that was already handed out. *)
Definition timer_inv (s : Notifier) : Prop :=
  pending s = []
  \/ exists t, pending s = [t]
               /\ cleanup s = Some (timer_id t)
               /\ (clock s < timer_due t)%N
               /\ timer_id t < next_timer s.

(** The timer table mirrors the message: no timer while the text is
    empty, and one timer, due within the next 5000 ms, while it is not. *)
Definition timer_mirrors_message (s : Notifier) : Prop :=
  (pending s = [] /\ truthy_str (msg_text (shown s)) = false)
  \/ exists t, pending s = [t]
               /\ truthy_str (msg_text (shown s)) = true
               /\ (clock s < timer_due t <= clock s + 5000)%N.

(** The distinct names of a list, each kept where it first occurs. *)
Fixpoint distinct (l : list jsstring) : list jsstring :=
  match l with
  | [] => []
  | x :: r => x :: filter (fun y => negb (jsstring_eqb y x)) (distinct r)
  end.

(** The ids of the entries, which the render uses as React keys
    ([key={pdf.id}], line 193). *)
Definition keys (l : list RecentPdf) : list Z := map pdf_id l.

(** ** Sample data *)

(** The [metrics] object of the backend contract, with its numbers as
    decimal fractions. *)
Record BackendMetrics : Type := {
  latency : Z * Z;
  llm_cpu : Z * Z;
  llm_mem_mb : Z * Z
}.

Definition report_pdf : PdfFile :=
  {| file_name := lit "report.pdf"; file_type := pdf_mime;
     file_bytes := Some [37; 80; 68; 70]%N |}.

Definition answered : State BackendMetrics :=
  {| query := lit "What is the summary?";
     response := val (lit "It is about X");
     loading := false;
     metrics := val {| latency := (12, 10)%Z; llm_cpu := (40, 1)%Z;
                       llm_mem_mb := (512, 1)%Z |};
     pdfFile := val report_pdf;
     showUploadModal := false;
     recentPdfs := [{| pdf_id := 1700000000000; pdf_name := lit "report.pdf" |}];
     message := no_message |}.

(** * Properties *)

Lemma jsstring_eqb_eq (a b : jsstring) : jsstring_eqb a b = true <-> a = b.
Proof.
  revert b; induction a as [|x a IH]; destruct b as [|y b]; simpl;
    try (split; [discriminate | congruence]); try tauto.
  rewrite andb_true_iff, N.eqb_eq, IH.
  split; [intros [-> ->]; reflexivity | intros H; inversion H; auto].
Qed.

Lemma jsstring_eqb_refl (a : jsstring) : jsstring_eqb a a = true.
Proof. apply jsstring_eqb_eq; reflexivity. Qed.

Lemma jsstring_eqb_neq (a b : jsstring) : jsstring_eqb a b = false <-> a <> b.
Proof.
  rewrite <- jsstring_eqb_eq.
  destruct (jsstring_eqb a b); split; congruence.
Qed.

(** ** The Recent PDFs list *)

Section RecentList.

Variable name : jsstring.

Lemma names_filter_other (l : list RecentPdf) :
  names (filter (fun p => negb (jsstring_eqb (pdf_name p) name)) l)
  = filter (fun x => negb (jsstring_eqb x name)) (names l).
Proof.
  induction l as [|p l IH]; simpl; [reflexivity|].
  destruct (jsstring_eqb (pdf_name p) name); simpl;
    [exact IH | f_equal; exact IH].
Qed.

Lemma name_not_in_filter (l : list RecentPdf) :
  ~ In name
      (names (filter (fun p => negb (jsstring_eqb (pdf_name p) name)) l)).
Proof.
  rewrite names_filter_other. intros H.
  apply filter_In in H. destruct H as [_ H].
  rewrite jsstring_eqb_refl in H. discriminate.
Qed.

Lemma NoDup_names_filter (l : list RecentPdf) :
  NoDup (names l) ->
  NoDup (names (filter (fun p => negb (jsstring_eqb (pdf_name p) name)) l)).
Proof.
  intros H. rewrite names_filter_other. apply NoDup_filter. exact H.
Qed.

(** Dropping the one entry that carries [name] shortens the list by one. *)
Lemma length_filter_present (l : list RecentPdf) :
  NoDup (names l) -> In name (names l) ->
  S (List.length (filter (fun p => negb (jsstring_eqb (pdf_name p) name)) l))
  = List.length l.
Proof.
  induction l as [|p l IH]; simpl; [tauto|].
  intros ND Hin. inversion ND as [|? ? Hnot ND']; subst.
  destruct (jsstring_eqb (pdf_name p) name) eqn:E; simpl.
  - apply jsstring_eqb_eq in E. f_equal.
    assert (Hall : forallb (fun p => negb (jsstring_eqb (pdf_name p) name)) l
                   = true).
    { apply forallb_forall. intros q Hq.
      destruct (jsstring_eqb (pdf_name q) name) eqn:E'; [|reflexivity].
      apply jsstring_eqb_eq in E'. exfalso. apply Hnot.
      rewrite E, <- E'. apply in_map. exact Hq. }
    clear - Hall. induction l as [|q l IH]; simpl in *; [reflexivity|].
    apply andb_true_iff in Hall. destruct Hall as [Hq Hl].
    rewrite Hq. simpl. f_equal. apply IH. exact Hl.
  - f_equal. apply IH; [exact ND'|].
    destruct Hin as [Hin|Hin]; [|exact Hin].
    apply jsstring_eqb_neq in E. congruence.
Qed.

End RecentList.

Lemma In_slice (A : Type) (k : nat) (l : list A) (x : A) :
  In x (firstn k l) -> In x l.
Proof.
  revert l; induction k as [|k IH]; intros [|y l]; simpl; try tauto.
  intros [H|H]; [left; exact H | right; apply IH; exact H].
Qed.

Lemma NoDup_slice (A : Type) (k : nat) (l : list A) :
  NoDup l -> NoDup (firstn k l).
Proof.
  revert l; induction k as [|k IH]; intros [|x l] H; simpl;
    try constructor; inversion H; subst.
  - intros Hin. apply In_slice in Hin. tauto.
  - apply IH. assumption.
Qed.

Lemma recordSuccess_ok (now : Z) (name : jsstring) (prev : list RecentPdf) :
  NoDup (names prev) -> cache_ok (recordSuccess now name prev).
Proof.
  intros ND. unfold cache_ok, recordSuccess. split.
  - apply firstn_le_length.
  - unfold names. rewrite <- firstn_map. apply NoDup_slice.
    simpl. constructor.
    + apply name_not_in_filter.
    + apply NoDup_names_filter. exact ND.
Qed.

Lemma recordAll_snoc (calls : list (Z * jsstring)) (c : Z * jsstring) :
  recordAll (calls ++ [c]) = recordSuccess (fst c) (snd c) (recordAll calls).
Proof. unfold recordAll. rewrite fold_left_app. reflexivity. Qed.

Lemma recordAll_ok (calls : list (Z * jsstring)) : cache_ok (recordAll calls).
Proof.
  induction calls as [|c calls IH] using rev_ind.
  - split; simpl; [lia | constructor].
  - rewrite recordAll_snoc. apply recordSuccess_ok. apply IH.
Qed.

(** C7. In a list built by successful uploads that already holds an
    entry named [n], uploading [n] again puts a new entry named [n] in
    front, keeps the other entries in their order, and leaves the number
    of entries as it was. *)
Theorem C7_reupload_promotes :
  forall (calls : list (Z * jsstring)) (now : Z) (n : jsstring),
    In n (names (recordAll calls)) ->
    let prev := recordAll calls in
    let next := recordSuccess now n prev in
    next
    = {| pdf_id := now; pdf_name := n |}
        :: filter (fun p => negb (jsstring_eqb (pdf_name p) n)) prev
    /\ hd_error (names next) = Some n
    /\ List.length next = List.length prev.
Proof.
  intros calls now n Hin prev next.
  destruct (recordAll_ok calls) as [Hlen ND]. fold prev in Hlen, ND, Hin.
  pose proof (length_filter_present n prev ND Hin) as Hf.
  assert (E : next
              = {| pdf_id := now; pdf_name := n |}
                  :: filter (fun p => negb (jsstring_eqb (pdf_name p) n)) prev).
  { unfold next, recordSuccess. apply firstn_all2. simpl. lia. }
  rewrite E. simpl. repeat split. lia.
Qed.

Lemma C7_reupload_promotes_witness :
  let calls := [(1, lit "a.pdf"); (2, lit "b.pdf"); (3, lit "c.pdf")]%Z in
  In (lit "a.pdf") (names (recordAll calls))
  /\ hd_error (names (recordSuccess 4 (lit "a.pdf") (recordAll calls)))
     = Some (lit "a.pdf")
  /\ List.length (recordSuccess 4 (lit "a.pdf") (recordAll calls)) = 3.
Proof.
  intros calls.
  assert (Hin : In (lit "a.pdf") (names (recordAll calls))).
  { vm_compute. auto. }
  split; [exact Hin|].
  destruct (C7_reupload_promotes calls 4 (lit "a.pdf") Hin) as (_ & Hhd & Hlen).
  split; [exact Hhd | rewrite Hlen; reflexivity].
Defined.

(** ** The handlers *)

Section Handlers.

Variable Metrics : Type.


Lemma run_app (tr1 tr2 : list (Action Metrics)) (s : State Metrics) :
  run (tr1 ++ tr2) s = run tr2 (run tr1 s).
Proof. apply fold_left_app. Qed.

Lemma requests_app (tr1 tr2 : list (Action Metrics)) :
  requests (tr1 ++ tr2) = requests tr1 ++ requests tr2.
Proof. apply filter_app. Qed.

Ltac upload_cases files file net :=
  unfold handleFileChange, upload_accepts;
  destruct files as [|file ?];
  [| destruct (jsstring_eqb (file_type file) pdf_mime);
     [destruct net as [? | [|] ?] |] ].

Ltac query_cases snap net :=
  unfold handleQuery, query_accepts;
  destruct (truthy_str (val (trim (query snap))));
  [ destruct (truthy_obj (pdfFile snap));
    [destruct net as [? | [|] ?] |] |].

Lemma upload_sets_loading_iff
  (files : list PdfFile) (net : Outcome Metrics) (now : Z) :
  In (setLoading true) (handleFileChange files net now)
  <-> upload_accepts files = true.
Proof.
  upload_cases files file net; simpl; split; intros H;
    try reflexivity; try discriminate; try tauto;
    repeat (destruct H as [H|H]; try discriminate H); try contradiction.
Qed.

Lemma query_sets_loading_iff (snap : State Metrics) (net : Outcome Metrics) :
  In (setLoading true) (handleQuery snap net)
  <-> query_accepts snap = true.
Proof.
  query_cases snap net; simpl; split; intros H;
    try reflexivity; try discriminate; try tauto;
    repeat (destruct H as [H|H]; try discriminate H); try contradiction.
Qed.

(** C1. On every path of [handleFileChange] and of [handleQuery] that
    sets [loading] (reply with ok status, reply with another status,
    exception), the handler's last call is [setLoading(false)], and
    [loading] is false once the handler has completed, whatever the state
    it ran on. *)
Theorem C1_loading_released :
  (forall (files : list PdfFile) (net : Outcome Metrics) (now : Z)
          (s : State Metrics),
      In (setLoading true) (handleFileChange files net now) ->
      last (handleFileChange files net now) (setLoading true)
      = setLoading false
      /\ loading (run (handleFileChange files net now) s) = false)
  /\
  (forall (snap : State Metrics) (net : Outcome Metrics) (s : State Metrics),
      In (setLoading true) (handleQuery snap net) ->
      last (handleQuery snap net) (setLoading true) = setLoading false
      /\ loading (run (handleQuery snap net) s) = false).
Proof.
  split.
  - intros files net now s H. apply upload_sets_loading_iff in H.
    revert H. upload_cases files file net; intros H; try discriminate H;
      split; reflexivity.
  - intros snap net s H. apply query_sets_loading_iff in H.
    revert H. query_cases snap net; intros H; try discriminate H;
      split; reflexivity.
Qed.

(** C3 (amended). With no PDF loaded, [handleQuery] sends no request and
    its only call is one [setMessage] of type error, so nothing but
    [message] changes; the message is 'Please upload a PDF first.' when
    the trimmed question is not empty, and 'Please enter a question.'
    when it is empty, because the question is checked first. *)
Theorem C3_query_without_pdf :
  forall (snap : State Metrics) (net : Outcome Metrics),
    truthy_obj (pdfFile snap) = false ->
    let tr := handleQuery snap net in
    requests tr = []
    /\ (exists m, tr = [setMessage m] /\ msg_type m = error)
    /\ (trim (query snap) <> [] -> tr = [setMessage upload_first])
    /\ (trim (query snap) = [] -> tr = [setMessage enter_question]).
Proof.
  intros snap net Hpdf tr. subst tr. unfold handleQuery. rewrite Hpdf.
  destruct (trim (query snap)) as [|c q]; simpl.
  - repeat split; try congruence. eexists; split; reflexivity.
  - repeat split; try congruence. eexists; split; reflexivity.
Qed.

(** C4 (amended). When an accepted query ends with a reply whose status
    is not ok, or with an exception, the loaded PDF, the recent list and
    the question are as before the call, and the answer and the metrics
    are both at their cleared values ([''] and [null]) whatever they
    were before: they were cleared together before the request was sent
    and no failure path writes either of them.  [loading] is false and
    the message is of type error. *)
Theorem C4_query_failure_state :
  forall (snap : State Metrics) (net : Outcome Metrics),
    query_accepts snap = true ->
    (forall data, net <> Replied true data) ->
    let waiting := run (before_fetch (handleQuery snap net)) snap in
    let s' := run (handleQuery snap net) snap in
    (response waiting = val [] /\ metrics waiting = null)
    /\ pdfFile s' = pdfFile snap
    /\ recentPdfs s' = recentPdfs snap
    /\ query s' = query snap
    /\ response s' = val []
    /\ metrics s' = null
    /\ loading s' = false
    /\ msg_type (message s') = error.
Proof.
  intros snap net Hacc Herr. revert Hacc.
  query_cases snap net; intros Hacc; try discriminate Hacc.
  - repeat split.
  - exfalso. eapply Herr. reflexivity.
  - repeat split.
Qed.

(** C5 (amended). [pdfFile] is written by three operations only.  An
    accepted upload sets it to the file before the request is sent,
    keeps it when the reply's status is ok, and resets it to [null] on
    any other reply and on an exception; an upload that is not accepted
    leaves it alone.  The remove button sets it to [null].  A click on a
    recent entry sets it to [{ name, type: 'application/pdf' }].  Query,
    copy, the modal buttons, typing and the message timer make no
    [setPdfFile] call. *)
Theorem C5_pdfFile_writers :
  forall (snap : State Metrics) (op : Operation Metrics),
    let tr := perform snap op in
    match op with
    | op_upload files net _ =>
        match files with
        | file :: _ =>
            if jsstring_eqb (file_type file) pdf_mime then
              pdfFile (run (before_fetch tr) snap) = val file
              /\ pdfFile (run tr snap)
                 = match net with
                   | Replied true _ => val file
                   | _ => null
                   end
            else existsb (@sets_pdfFile Metrics) tr = false
                 /\ pdfFile (run tr snap) = pdfFile snap
        | [] => existsb (@sets_pdfFile Metrics) tr = false
                /\ pdfFile (run tr snap) = pdfFile snap
        end
    | op_remove => pdfFile (run tr snap) = null
    | op_selectEntry pdf =>
        pdfFile (run tr snap)
        = val {| file_name := pdf_name pdf; file_type := pdf_mime;
                 file_bytes := None |}
    | _ => existsb (@sets_pdfFile Metrics) tr = false
           /\ pdfFile (run tr snap) = pdfFile snap
    end.
Proof.
  intros snap [files net now | net | c | | pdf | | | v | ]; simpl;
    try (split; reflexivity); try reflexivity.
  - upload_cases files file net; split; reflexivity.
  - query_cases snap net; split; reflexivity.
  - unfold copyToClipboard. destruct (truthy_str (response snap)), c;
      split; reflexivity.
Qed.

(** C8. A click on a recent entry sends no request, sets [pdfFile] to
    [{ name: pdf.name, type: 'application/pdf' }] and leaves the recent
    list as it is; in particular, clicking an entry right after an
    upload that succeeded replaces the uploaded file in [pdfFile] and
    keeps the list that the upload produced. *)
Theorem C8_select_recent :
  (forall (snap : State Metrics) (pdf : RecentPdf),
      let tr := @onRecentClick Metrics pdf in
      requests tr = []
      /\ pdfFile (run tr snap)
         = val {| file_name := pdf_name pdf; file_type := pdf_mime;
                  file_bytes := None |}
      /\ recentPdfs (run tr snap) = recentPdfs snap)
  /\
  (forall (snap : State Metrics) (file : PdfFile) (others : list PdfFile)
          (data : Data Metrics) (now : Z) (pdf : RecentPdf),
      file_type file = pdf_mime ->
      let uploaded :=
        run (handleFileChange (file :: others) (Replied true data) now) snap in
      let selected := run (onRecentClick pdf) uploaded in
      pdfFile uploaded = val file
      /\ recentPdfs uploaded
         = recordSuccess now (file_name file) (recentPdfs snap)
      /\ pdfFile selected
         = val {| file_name := pdf_name pdf; file_type := pdf_mime;
                  file_bytes := None |}
      /\ recentPdfs selected = recentPdfs uploaded).
Proof.
  split.
  - intros snap pdf. repeat split.
  - intros snap file others data now pdf Htype.
    unfold handleFileChange. rewrite Htype, jsstring_eqb_refl.
    repeat split.
Qed.

(** C9. With a non-empty answer, [copyToClipboard] selects a textarea
    holding the answer and runs the copy command.  When the command
    returns [true], the clipboard holds the answer and the one message
    shown is of type success; when it throws, the clipboard is untouched
    and the one message shown is of type error.  When the command
    returns [false], the clipboard is untouched as well, but the result
    is not looked at and the one message shown is still 'Response copied
    to clipboard!' of type success, not an error.  On every outcome no
    request is sent and only [message] changes: [pdfFile], [loading],
    [response] and [metrics] (and the question and the recent list) are
    as before. *)
Theorem C9_copy_answer :
  forall (snap : State Metrics) (c : CopyOutcome) (page : Page),
    truthy_str (response snap) = true ->
    let tr := copyToClipboard snap c in
    let s' := run tr snap in
    (exists rest,
        tr = textarea_select (response snap) :: execCommand_copy c :: rest)
    /\ match c with
       | copy_returned copied =>
           clipboard (page_run tr page)
           = (if copied then response snap else clipboard page)
           /\ notifications tr
              = [ {| msg_text := val (lit "Response copied to clipboard!");
                     msg_type := success |} ]
       | copy_threw =>
           clipboard (page_run tr page) = clipboard page
           /\ notifications tr
              = [ {| msg_text := val (lit "Failed to copy text.");
                     msg_type := error |} ]
       end
    /\ requests tr = []
    /\ pdfFile s' = pdfFile snap
    /\ loading s' = loading snap
    /\ response s' = response snap
    /\ metrics s' = metrics snap
    /\ query s' = query snap
    /\ recentPdfs s' = recentPdfs snap.
Proof.
  intros snap c page Hresp tr s'. subst s' tr.
  unfold copyToClipboard. rewrite Hresp.
  destruct c as [[|] |]; (split; [eexists; reflexivity |]); repeat split.
Qed.

(** C10. With an empty answer ([''], or no string at all),
    [copyToClipboard] makes no call: no copy command, no message, and
    the state and the clipboard are exactly what they were. *)
Theorem C10_copy_nothing :
  forall (snap : State Metrics) (c : CopyOutcome) (page : Page),
    truthy_str (response snap) = false ->
    copyToClipboard snap c = []
    /\ notifications (copyToClipboard snap c) = []
    /\ run (copyToClipboard snap c) snap = snap
    /\ page_run (copyToClipboard snap c) page = page.
Proof.
  intros snap c page Hresp. unfold copyToClipboard. rewrite Hresp.
  repeat split.
Qed.

(** Every operation either keeps the recent list or records one upload
    in it, so the bound and the distinct names hold throughout a
    session. *)
Lemma perform_recent (snap : State Metrics) (op : Operation Metrics) :
  recentPdfs (run (perform snap op) snap) = recentPdfs snap
  \/ exists now name,
       recentPdfs (run (perform snap op) snap)
       = recordSuccess now name (recentPdfs snap).
Proof.
  destruct op as [files net now | net | c | | pdf | | | v | ]; simpl;
    try (left; reflexivity).
  - upload_cases files file net; try (left; reflexivity).
    right. eexists _, _. reflexivity.
  - query_cases snap net; left; reflexivity.
  - unfold copyToClipboard. destruct (truthy_str (response snap)), c;
      left; reflexivity.
Qed.

Lemma session_recent_ok (ops : list (Operation Metrics)) :
  cache_ok (recentPdfs (session ops (initialState Metrics))).
Proof.
  induction ops as [|op ops IH] using rev_ind.
  - split; simpl; [lia | constructor].
  - unfold session in *. rewrite fold_left_app. simpl.
    set (s := fold_left _ ops _) in *.
    destruct (perform_recent s op) as [E | (now & name & E)]; rewrite E.
    + exact IH.
    + apply recordSuccess_ok. apply IH.
Qed.

End Handlers.

(** C2. Whatever successful uploads happened since the page was loaded,
    in whatever order and with whatever file names and clock readings,
    the Recent PDFs list holds at most 5 entries and no two of them carry
    the same name; and so does [recentPdfs] after any session of the
    component, since a successful upload is the only writer of the list. *)
Theorem C2_recent_bounded_and_distinct :
  (forall calls : list (Z * jsstring),
      List.length (recordAll calls) <= 5 /\ NoDup (names (recordAll calls)))
  /\
  (forall (Metrics : Type) (ops : list (Operation Metrics)),
      let l := recentPdfs (session ops (initialState Metrics)) in
      List.length l <= 5 /\ NoDup (names l)).
Proof.
  split.
  - intros calls. exact (recordAll_ok calls).
  - intros Metrics ops. exact (session_recent_ok ops).
Qed.

(** ** The message timer *)

Lemma commit_spec (m : Message) (s : Notifier) :
  timer_inv s ->
  commit m s
  = if truthy_str (msg_text m) then
      {| clock := clock s; shown := m;
         pending := [{| timer_id := next_timer s;
                        timer_due := clock s + 5000 |}];
         next_timer := S (next_timer s);
         cleanup := Some (next_timer s) |}
    else
      {| clock := clock s; shown := m; pending := [];
         next_timer := next_timer s; cleanup := None |}.
Proof.
  intros [Hp | (t & Hp & Hc & _)]; unfold commit.
  - destruct (cleanup s) as [id|];
      unfold message_effect, clearTimeout, setTimeout, with_cleanup; simpl;
      rewrite Hp; simpl; destruct (truthy_str (msg_text m)); reflexivity.
  - rewrite Hc.
    unfold message_effect, clearTimeout, setTimeout, with_cleanup; simpl.
    rewrite Hp; simpl. rewrite Nat.eqb_refl; simpl.
    destruct (truthy_str (msg_text m)); reflexivity.
Qed.

Lemma commit_inv (m : Message) (s : Notifier) :
  timer_inv s -> timer_inv (commit m s).
Proof.
  intros H. rewrite (commit_spec m H).
  destruct (truthy_str (msg_text m)); [right | left; reflexivity].
  eexists; simpl. repeat split; simpl; lia.
Qed.

Lemma elapse_spec (d : N) (s : Notifier) :
  timer_inv s ->
  elapse d s
  = match pending s with
    | t :: _ =>
        if (timer_due t <=? clock s + d)%N then
          {| clock := clock s + d; shown := no_message; pending := [];
             next_timer := next_timer s; cleanup := None |}
        else
          {| clock := clock s + d; shown := shown s; pending := pending s;
             next_timer := next_timer s; cleanup := cleanup s |}
    | [] =>
        {| clock := clock s + d; shown := shown s; pending := [];
           next_timer := next_timer s; cleanup := cleanup s |}
    end.
Proof.
  intros [Hp | (t & Hp & Hc & _)]; unfold elapse; rewrite Hp; simpl.
  - rewrite Hp. reflexivity.
  - rewrite Hp. simpl.
    destruct (timer_due t <=? clock s + d)%N; [|rewrite Hp; reflexivity].
    unfold fire, commit; simpl. rewrite Hc, Hp. simpl.
    rewrite Nat.eqb_refl. reflexivity.
Qed.

Lemma elapse_inv (d : N) (s : Notifier) :
  timer_inv s -> timer_inv (elapse d s).
Proof.
  intros H. rewrite (elapse_spec d H).
  destruct H as [Hp | (t & Hp & Hc & Hdue & Hid)]; rewrite Hp.
  - left; reflexivity.
  - destruct (timer_due t <=? clock s + d)%N eqn:E; [left; reflexivity|].
    right. exists t. simpl. apply N.leb_gt in E. auto.
Qed.

Lemma ticks_inv (t0 : N) (es : list Tick) : timer_inv (ticks es (mounted t0)).
Proof.
  induction es as [|e es IH] using rev_ind.
  - left; reflexivity.
  - unfold ticks in *. rewrite fold_left_app. simpl.
    destruct e as [m | d]; simpl; [apply commit_inv | apply elapse_inv];
      exact IH.
Qed.

(** C6. Along any sequence of messages and waits since the component
    was mounted: the timer table never holds more than one timer, and a
    timer in it is not yet due.  Showing a message with a non-empty text
    clears whatever timer was pending and schedules one timer, due 5000
    ms later; that message is still shown after any shorter wait, and
    after a wait of 5000 ms or more the message is the empty one and no
    timer is left. *)
Theorem C6_single_timer :
  forall (t0 : N) (es : list Tick),
    let s0 := ticks es (mounted t0) in
    List.length (pending s0) <= 1
    /\ (forall t, In t (pending s0) -> (clock s0 < timer_due t)%N)
    /\ forall (m : Message) (d : N),
         truthy_str (msg_text m) = true ->
         let s1 := tick s0 (notify m) in
         let s2 := tick s1 (wait d) in
         (forall t, In t (pending s0) -> ~ In t (pending s1))
         /\ pending s1
            = [{| timer_id := next_timer s0;
                  timer_due := clock s0 + 5000 |}]
         /\ shown s1 = m
         /\ ((d < 5000)%N -> shown s2 = m /\ pending s2 = pending s1)
         /\ ((5000 <= d)%N -> shown s2 = no_message /\ pending s2 = []).
Proof.
  intros t0 es s0.
  pose proof (ticks_inv t0 es) as Hinv. fold s0 in Hinv.
  split; [|split].
  - destruct Hinv as [Hp | (t & Hp & _)]; rewrite Hp; simpl; lia.
  - intros t Hin.
    destruct Hinv as [Hp | (u & Hp & _ & Hdue & _)]; rewrite Hp in Hin;
      simpl in Hin; [contradiction|].
    destruct Hin as [<- | []]. exact Hdue.
  - intros m d Hm s1 s2.
    assert (E1 : s1 = {| clock := clock s0; shown := m;
                         pending := [{| timer_id := next_timer s0;
                                        timer_due := clock s0 + 5000 |}];
                         next_timer := S (next_timer s0);
                         cleanup := Some (next_timer s0) |}).
    { unfold s1; simpl. rewrite (commit_spec m Hinv), Hm. reflexivity. }
    assert (Hinv1 : timer_inv s1) by (apply commit_inv; exact Hinv).
    assert (E2 : s2 = elapse d s1) by reflexivity.
    rewrite (elapse_spec d Hinv1) in E2. rewrite E1 in E2. simpl in E2.
    split; [|split; [|split; [|split]]].
    + intros t Hin Hin1. rewrite E1 in Hin1. simpl in Hin1.
      destruct Hin1 as [Ht | []]. subst t.
      destruct Hinv as [Hp | (u & Hp & _ & _ & Hid)]; rewrite Hp in Hin;
        simpl in Hin; [contradiction|].
      destruct Hin as [Hu | []]. subst u. simpl in Hid. lia.
    + rewrite E1. reflexivity.
    + rewrite E1. reflexivity.
    + intros Hd. destruct (clock s0 + 5000 <=? clock s0 + d)%N eqn:E.
      * apply N.leb_le in E. lia.
      * rewrite E2, E1. split; reflexivity.
    + intros Hd. destruct (clock s0 + 5000 <=? clock s0 + d)%N eqn:E.
      * rewrite E2. split; reflexivity.
      * apply N.leb_gt in E. lia.
Qed.

(** ** The properties on sample runs *)

(** Upload of report.pdf answered 200 with [{ message: 'indexed' }]. *)
Example upload_indexed :
  let body : Data BackendMetrics :=
    {| data_message := val (lit "indexed"); data_response := undefined;
       data_metrics := undefined |} in
  let s := run (handleFileChange [report_pdf] (Replied true body) 7)
             (initialState BackendMetrics) in
  pdfFile s = val report_pdf
  /\ recentPdfs s = [{| pdf_id := 7; pdf_name := lit "report.pdf" |}]
  /\ message s = {| msg_text := val (lit "indexed"); msg_type := success |}
  /\ loading s = false.
Proof. repeat split. Qed.

(** Upload answered 500 with [{ message: 'bad pdf' }]. *)
Example upload_refused :
  let body : Data BackendMetrics :=
    {| data_message := val (lit "bad pdf"); data_response := undefined;
       data_metrics := undefined |} in
  let s := run (handleFileChange [report_pdf] (Replied false body) 7)
             answered in
  pdfFile s = null
  /\ recentPdfs s = recentPdfs answered
  /\ message s
     = {| msg_text := val (lit "Error: bad pdf"); msg_type := error |}.
Proof. repeat split. Qed.

(** A query answered 200 with an answer and its metrics. *)
Example query_answered :
  let m := {| latency := (12, 10)%Z; llm_cpu := (40, 1)%Z;
              llm_mem_mb := (512, 1)%Z |} in
  let body : Data BackendMetrics :=
    {| data_message := undefined; data_response := val (lit "It is about X");
       data_metrics := val m |} in
  let asked :=
    run [setPdfFile (val report_pdf); setQuery (lit "What is the summary?")]
      (initialState BackendMetrics) in
  let s := run (handleQuery asked (Replied true body)) asked in
  requests (handleQuery asked (Replied true body))
  = [fetch (lit "http://localhost:5000/ask_pdf")
       (json_query (lit "What is the summary?"))]
  /\ response s = val (lit "It is about X")
  /\ metrics s = val m
  /\ msg_type (message s) = success
  /\ loading s = false.
Proof. repeat split. Qed.

(** A sixth distinct upload evicts the oldest name. *)
Example sixth_upload_evicts :
  names (recordAll [(1, lit "a"); (2, lit "b"); (3, lit "c"); (4, lit "d");
                    (5, lit "e"); (6, lit "f")]%Z)
  = [lit "f"; lit "e"; lit "d"; lit "c"; lit "b"].
Proof. reflexivity. Qed.

(** Trimming strips blanks at both ends and keeps those inside. *)
Example trim_question :
  trim (lit "  a b  ") = lit "a b" /\ trim [32; 160; 10; 8232]%N = [].
Proof. split; reflexivity. Qed.

Lemma C1_loading_released_witness :
  let down : Outcome BackendMetrics := Threw (lit "Failed to fetch") in
  let refused : Outcome BackendMetrics :=
    Replied false {| data_message := val (lit "bad pdf");
                     data_response := undefined;
                     data_metrics := undefined |} in
  (In (setLoading true) (handleFileChange [report_pdf] down 0)
   /\ loading (run (handleFileChange [report_pdf] down 0)
                 (initialState BackendMetrics)) = false)
  /\ (In (setLoading true) (handleQuery answered refused)
      /\ loading (run (handleQuery answered refused) answered) = false).
Proof.
  intros down refused.
  destruct (C1_loading_released BackendMetrics) as [Hupload Hquery].
  assert (H1 : In (setLoading true) (handleFileChange [report_pdf] down 0)).
  { simpl. auto 10. }
  assert (H2 : In (setLoading true) (handleQuery answered refused)).
  { simpl. auto 10. }
  split; split; try assumption.
  - exact (proj2 (Hupload _ _ _ (initialState BackendMetrics) H1)).
  - exact (proj2 (Hquery _ _ answered H2)).
Defined.

(** With no PDF loaded and an empty or blank question, the message is
    'Please enter a question.', not 'Please upload a PDF first.'. *)
Lemma C3_counterexample :
  let empty := initialState BackendMetrics in
  let blank := run [setQuery [32; 9; 10]%N] (initialState BackendMetrics) in
  let net : Outcome BackendMetrics := Threw [] in
  pdfFile empty = null /\ pdfFile blank = null
  /\ handleQuery empty net = [setMessage enter_question]
  /\ handleQuery blank net = [setMessage enter_question]
  /\ enter_question <> upload_first.
Proof.
  repeat split. intros H. vm_compute in H. discriminate H.
Qed.

Lemma C3_query_without_pdf_witness :
  let asked :=
    run [setQuery (lit "What is the summary?")] (initialState BackendMetrics) in
  let net : Outcome BackendMetrics := Threw [] in
  truthy_obj (pdfFile asked) = false
  /\ requests (handleQuery asked net) = []
  /\ handleQuery asked net = [setMessage upload_first].
Proof.
  intros asked net.
  assert (H : truthy_obj (pdfFile asked) = false) by reflexivity.
  destruct (C3_query_without_pdf asked net H) as (Hreq & _ & Hmsg & _).
  split; [exact H | split; [exact Hreq |]].
  apply Hmsg. vm_compute. discriminate.
Defined.

(** After an answer was shown, a query that fails leaves the answer and
    the metrics neither as they were nor at a value from the reply. *)
Lemma C4_counterexample :
  let down : Outcome BackendMetrics := Threw (lit "Failed to fetch") in
  let body : Data BackendMetrics :=
    {| data_message := val (lit "boom"); data_response := undefined;
       data_metrics := undefined |} in
  let s1 := run (handleQuery answered down) answered in
  let s2 := run (handleQuery answered (Replied false body)) answered in
  response s1 = val [] /\ metrics s1 = null
  /\ response s1 <> response answered /\ metrics s1 <> metrics answered
  /\ response s2 = val [] /\ metrics s2 = null
  /\ response s2 <> response answered /\ metrics s2 <> metrics answered
  /\ response s2 <> data_response body /\ metrics s2 <> data_metrics body.
Proof.
  repeat split; intros H; vm_compute in H; discriminate H.
Qed.

Lemma C4_query_failure_state_witness :
  let refused : Outcome BackendMetrics :=
    Replied false {| data_message := val (lit "boom");
                     data_response := undefined;
                     data_metrics := undefined |} in
  let s' := run (handleQuery answered refused) answered in
  query_accepts answered = true
  /\ pdfFile s' = val report_pdf
  /\ response s' = val [] /\ metrics s' = null.
Proof.
  intros refused s'.
  assert (Hacc : query_accepts answered = true) by reflexivity.
  assert (Herr : forall data, refused <> Replied true data)
    by (intros data; discriminate).
  destruct (C4_query_failure_state answered Hacc Herr)
    as (_ & Hpdf & _ & _ & Hresp & Hmet & _).
  repeat split; assumption.
Defined.

(** [pdfFile] holds the file while the upload is still waiting for a
    reply that never arrives, and a click on a recent entry sets it with
    no upload at all. *)
Lemma C5_counterexample :
  let s0 := initialState BackendMetrics in
  let down : Outcome BackendMetrics := Threw (lit "Failed to fetch") in
  let entry := {| pdf_id := 1; pdf_name := lit "old.pdf" |} in
  pdfFile s0 = null
  /\ requests (before_fetch (handleFileChange [report_pdf] down 0)) = []
  /\ pdfFile (run (before_fetch (handleFileChange [report_pdf] down 0)) s0)
     = val report_pdf
  /\ requests (perform s0 (op_selectEntry entry)) = []
  /\ pdfFile (run (perform s0 (op_selectEntry entry)) s0)
     = val {| file_name := lit "old.pdf"; file_type := pdf_mime;
              file_bytes := None |}.
Proof. repeat split. Qed.

Lemma C6_single_timer_witness :
  let first := {| msg_text := val (lit "indexed"); msg_type := success |} in
  let second := {| msg_text := val (lit "Response generated successfully!");
                   msg_type := success |} in
  let s0 := ticks [notify first; wait 3000] (mounted 0) in
  truthy_str (msg_text second) = true
  /\ shown (tick (tick s0 (notify second)) (wait 4000)) = second
  /\ shown (tick (tick s0 (notify second)) (wait 5000)) = no_message.
Proof.
  intros first second s0.
  assert (H : truthy_str (msg_text second) = true) by reflexivity.
  destruct (C6_single_timer 0 [notify first; wait 3000]) as (_ & _ & Hnew).
  split; [exact H | split].
  - destruct (Hnew second 4000%N H) as (_ & _ & _ & Hshort & _).
    apply Hshort. reflexivity.
  - destruct (Hnew second 5000%N H) as (_ & _ & _ & _ & Hlong).
    apply Hlong. discriminate.
Defined.

Lemma C8_select_recent_witness :
  let body : Data BackendMetrics :=
    {| data_message := val (lit "indexed"); data_response := undefined;
       data_metrics := undefined |} in
  let entry := {| pdf_id := 1; pdf_name := lit "old.pdf" |} in
  let uploaded :=
    run (handleFileChange [report_pdf] (Replied true body) 2) answered in
  file_type report_pdf = pdf_mime
  /\ pdfFile (run (onRecentClick entry) uploaded)
     = val {| file_name := lit "old.pdf"; file_type := pdf_mime;
              file_bytes := None |}
  /\ recentPdfs (run (onRecentClick entry) uploaded) = recentPdfs uploaded.
Proof.
  intros body entry uploaded.
  assert (H : file_type report_pdf = pdf_mime) by reflexivity.
  destruct (proj2 (C8_select_recent BackendMetrics)
              answered report_pdf [] body 2%Z entry H)
    as (_ & _ & Hpdf & Hrecent).
  split; [exact H | split; [exact Hpdf | exact Hrecent]].
Defined.

Lemma C9_copy_answer_witness :
  let page := {| selection := None; clipboard := val (lit "old") |} in
  let refused := copy_returned false in
  truthy_str (response answered) = true
  /\ clipboard (page_run (copyToClipboard answered refused) page)
     = val (lit "old")
  /\ notifications (copyToClipboard answered refused)
     = [ {| msg_text := val (lit "Response copied to clipboard!");
            msg_type := success |} ]
  /\ response (run (copyToClipboard answered refused) answered)
     = response answered.
Proof.
  intros page refused.
  assert (H : truthy_str (response answered) = true) by reflexivity.
  destruct (C9_copy_answer answered refused page H)
    as (_ & (Hclip & Hmsg) & _ & _ & _ & Hresp & _).
  split; [exact H | split; [exact Hclip | split; [exact Hmsg | exact Hresp]]].
Defined.

Lemma C10_copy_nothing_witness :
  let page := {| selection := None; clipboard := val (lit "old") |} in
  truthy_str (response (initialState BackendMetrics)) = false
  /\ copyToClipboard (initialState BackendMetrics) (copy_returned true) = []
  /\ page_run (copyToClipboard (initialState BackendMetrics) (copy_returned true))
       page = page.
Proof.
  intros page.
  assert (H : truthy_str (response (initialState BackendMetrics)) = false)
    by reflexivity.
  destruct (C10_copy_nothing (initialState BackendMetrics) (copy_returned true) page H)
    as (Hnil & _ & _ & Hpage).
  split; [exact H | split; [exact Hnil | exact Hpage]].
Defined.

(** * Further properties of the code *)

(** ** The Recent PDFs list *)

Lemma filter_absent (name : jsstring) (l : list RecentPdf) :
  ~ In name (names l) ->
  filter (fun p => negb (jsstring_eqb (pdf_name p) name)) l = l.
Proof.
  induction l as [|p l IH]; simpl; [reflexivity|]. intros H.
  destruct (jsstring_eqb (pdf_name p) name) eqn:E; simpl.
  - apply jsstring_eqb_eq in E. tauto.
  - f_equal. apply IH. tauto.
Qed.

(** X3. Uploading a name that is not in the list puts the new entry in
    front of the four most recent entries, unchanged and in their
    order; a fifth entry, the oldest, is dropped. *)
Theorem recordSuccess_new_name :
  forall (now : Z) (name : jsstring) (prev : list RecentPdf),
    ~ In name (names prev) ->
    recordSuccess now name prev
    = {| pdf_id := now; pdf_name := name |} :: firstn 4 prev.
Proof.
  intros now name prev H. unfold recordSuccess.
  rewrite (filter_absent name prev H). reflexivity.
Qed.

Lemma recordSuccess_new_name_witness :
  let prev := recordAll [(1, lit "a"); (2, lit "b"); (3, lit "c");
                         (4, lit "d"); (5, lit "e")]%Z in
  ~ In (lit "f") (names prev)
  /\ names (recordSuccess 6 (lit "f") prev)
     = [lit "f"; lit "e"; lit "d"; lit "c"; lit "b"].
Proof.
  intros prev.
  assert (H : ~ In (lit "f") (names prev)).
  { vm_compute. intros H. repeat (destruct H as [H|H]; [discriminate H|]).
    exact H. }
  split; [exact H|].
  rewrite (recordSuccess_new_name 6 (lit "f") prev H). reflexivity.
Defined.

Lemma recordSuccess_cons (now : Z) (name : jsstring) (prev : list RecentPdf) :
  recordSuccess now name prev
  = {| pdf_id := now; pdf_name := name |}
      :: firstn 4 (filter (fun p => negb (jsstring_eqb (pdf_name p) name)) prev).
Proof. reflexivity. Qed.

(** X4. Uploading the same name twice in a row changes nothing but the
    id of the front entry: the second upload replaces the entry that the
    first one created and keeps every entry behind it. *)
Theorem recordSuccess_twice :
  forall (t1 t2 : Z) (name : jsstring) (prev : list RecentPdf),
    recordSuccess t2 name (recordSuccess t1 name prev)
    = {| pdf_id := t2; pdf_name := name |}
        :: tl (recordSuccess t1 name prev).
Proof.
  intros t1 t2 name prev.
  rewrite (recordSuccess_cons t1). set (F := filter _ prev).
  rewrite recordSuccess_cons. cbn [tl filter pdf_name].
  rewrite jsstring_eqb_refl. cbn [negb].
  rewrite filter_absent.
  - rewrite firstn_firstn. reflexivity.
  - intros H. unfold names in H. rewrite <- firstn_map in H.
    apply In_slice in H. exact (name_not_in_filter name prev H).
Qed.

Lemma NoDup_distinct (l : list jsstring) : NoDup (distinct l).
Proof.
  induction l as [|x r IH]; simpl; constructor.
  - intros H. apply filter_In in H. destruct H as [_ H].
    rewrite jsstring_eqb_refl in H. discriminate.
  - apply NoDup_filter. exact IH.
Qed.

Lemma names_recordSuccess (now : Z) (name : jsstring) (prev : list RecentPdf) :
  names (recordSuccess now name prev)
  = firstn 5
      (name :: filter (fun x => negb (jsstring_eqb x name)) (names prev)).
Proof.
  unfold recordSuccess, names. rewrite <- firstn_map. simpl map.
  fold (names (filter (fun p => negb (jsstring_eqb (pdf_name p) name)) prev)).
  rewrite names_filter_other. reflexivity.
Qed.

(** Cutting before filtering out one name loses nothing that survives a
    cut one shorter. *)
Lemma slice_filter_slice (name : jsstring) (l : list jsstring) :
  NoDup l ->
  forall k,
    firstn k (filter (fun x => negb (jsstring_eqb x name)) (firstn (S k) l))
    = firstn k (filter (fun x => negb (jsstring_eqb x name)) l).
Proof.
  induction l as [|x l IH]; intros ND k; [reflexivity|].
  inversion ND as [|? ? Hx ND']; subst.
  change (firstn (S k) (x :: l)) with (x :: firstn k l). simpl filter.
  destruct (jsstring_eqb x name) eqn:E; simpl negb; cbv iota.
  - apply jsstring_eqb_eq in E. subst x.
    assert (Hid : forall m : list jsstring, ~ In name m ->
                    filter (fun x => negb (jsstring_eqb x name)) m = m).
    { induction m as [|y m IHm]; simpl; [reflexivity|]. intros H.
      destruct (jsstring_eqb y name) eqn:E; simpl.
      - apply jsstring_eqb_eq in E. tauto.
      - f_equal. apply IHm. tauto. }
    rewrite (Hid l Hx).
    rewrite Hid by (intros H; apply In_slice in H; tauto).
    rewrite firstn_firstn. f_equal. lia.
  - destruct k as [|k]; [reflexivity|].
    change (firstn (S k) (x :: ?m)) with (x :: firstn k m).
    f_equal. apply IH. exact ND'.
Qed.

(** X1. The list shows the five most recently uploaded distinct names,
    newest first: it is the first five of the names of the successful
    uploads read from the latest backwards, each name kept at its latest
    upload. *)
Theorem recent_is_latest_five :
  forall calls : list (Z * jsstring),
    names (recordAll calls) = firstn 5 (distinct (rev (map snd calls))).
Proof.
  induction calls as [|c calls IH] using rev_ind; [reflexivity|].
  rewrite recordAll_snoc, names_recordSuccess, IH.
  rewrite map_app, rev_app_distr. simpl rev. simpl app. simpl distinct.
  change (firstn 5 (?x :: ?l)) with (x :: firstn 4 l).
  f_equal. apply slice_filter_slice. apply NoDup_distinct.
Qed.

Lemma NoDup_keys_filter (f : RecentPdf -> bool) (l : list RecentPdf) :
  NoDup (keys l) -> NoDup (keys (filter f l)).
Proof.
  induction l as [|p l IH]; simpl; intros H; [constructor|].
  inversion H as [|? ? Hp H']; subst.
  destruct (f p); simpl; [constructor|]; auto.
  intros Hin. apply Hp. unfold keys in *.
  apply in_map_iff in Hin. destruct Hin as (q & Hq & Hin).
  apply filter_In in Hin. apply in_map_iff. exists q. tauto.
Qed.

Lemma keys_recordSuccess (now : Z) (name : jsstring) (prev : list RecentPdf)
      (i : Z) :
  In i (keys (recordSuccess now name prev)) -> i = now \/ In i (keys prev).
Proof.
  unfold recordSuccess, keys. intros H. apply in_map_iff in H.
  destruct H as (q & Hq & Hin). apply In_slice in Hin.
  destruct Hin as [<- | Hin]; [left; symmetry; exact Hq | right].
  apply filter_In in Hin. apply in_map_iff. exists q. tauto.
Qed.

Lemma keys_recordAll (calls : list (Z * jsstring)) (i : Z) :
  In i (keys (recordAll calls)) -> In i (map fst calls).
Proof.
  induction calls as [|c calls IH] using rev_ind; [simpl; tauto|].
  rewrite recordAll_snoc, map_app, in_app_iff. intros H.
  apply keys_recordSuccess in H. destruct H as [-> | H].
  - right. simpl. auto.
  - left. apply IH. exact H.
Qed.

(** X2. When the successful uploads read pairwise different values of
    [Date.now()], the entries of the list have pairwise different ids,
    so the React keys of the rendered buttons are unique. *)
Theorem recent_keys_distinct :
  forall calls : list (Z * jsstring),
    NoDup (map fst calls) -> NoDup (keys (recordAll calls)).
Proof.
  induction calls as [|c calls IH] using rev_ind; intros ND;
    [constructor|].
  rewrite map_app in ND. simpl in ND.
  apply NoDup_remove in ND. rewrite app_nil_r in ND.
  destruct ND as [ND Hc].
  rewrite recordAll_snoc. unfold recordSuccess, keys.
  rewrite <- firstn_map. apply NoDup_slice. simpl. constructor.
  - intros Hin. apply Hc. apply keys_recordAll.
    unfold keys. apply in_map_iff in Hin. destruct Hin as (q & Hq & Hin).
    apply filter_In in Hin. apply in_map_iff. exists q. tauto.
  - apply NoDup_keys_filter. apply IH. exact ND.
Qed.

Lemma recent_keys_distinct_witness :
  let calls := [(10, lit "a"); (20, lit "b"); (30, lit "a")]%Z in
  NoDup (map fst calls) /\ NoDup (keys (recordAll calls)).
Proof.
  intros calls.
  assert (H : NoDup (map fst calls)).
  { simpl. repeat constructor; simpl; intuition discriminate. }
  split; [exact H | exact (recent_keys_distinct calls H)].
Defined.

(** Two uploads served within the same millisecond give two entries
    with the same id. *)
Example same_millisecond_same_key :
  keys (recordAll [(10, lit "a"); (10, lit "b")]%Z) = [10; 10]%Z.
Proof. reflexivity. Qed.

(** ** The question check *)

Lemma trim_start_nil (s : jsstring) :
  trim_start s = [] <-> forallb is_white s = true.
Proof.
  induction s as [|c s IH]; simpl; [tauto|].
  destruct (is_white c); simpl; [exact IH | split; discriminate].
Qed.

Lemma trim_start_white (s : jsstring) :
  forallb is_white (trim_start s) = true -> trim_start s = [].
Proof.
  induction s as [|c s IH]; simpl; [reflexivity|].
  destruct (is_white c) eqn:E; [exact IH|].
  simpl. rewrite E. discriminate.
Qed.

Lemma forallb_rev (A : Type) (f : A -> bool) (l : list A) :
  forallb f (rev l) = forallb f l.
Proof.
  induction l as [|x l IH]; simpl; [reflexivity|].
  rewrite forallb_app, IH. simpl. rewrite andb_true_r. apply andb_comm.
Qed.

(** [trim] leaves nothing exactly when every code unit is white space. *)
Lemma trim_nil (s : jsstring) : trim s = [] <-> forallb is_white s = true.
Proof.
  unfold trim. split.
  - intros H. apply (f_equal (@rev N)) in H. rewrite rev_involutive in H.
    simpl in H. apply trim_start_nil in H. rewrite forallb_rev in H.
    apply trim_start_nil. apply trim_start_white. exact H.
  - intros H. apply trim_start_nil in H. rewrite H. reflexivity.
Qed.

Lemma enter_question_not_upload_first : enter_question <> upload_first.
Proof. intros H. vm_compute in H. discriminate H. Qed.

Section Behaviour.

Variable Metrics : Type.

Ltac by_upload files file net :=
  unfold handleFileChange, upload_accepts;
  destruct files as [|file ?];
  [| destruct (jsstring_eqb (file_type file) pdf_mime) eqn:?;
     [destruct net as [? | [|] ?] |] ].

Ltac by_query snap net :=
  unfold handleQuery, query_accepts;
  destruct (truthy_str (val (trim (query snap)))) eqn:?;
  [ destruct (truthy_obj (pdfFile snap)) eqn:?;
    [destruct net as [? | [|] ?] |] |].

Ltac by_copy snap c :=
  unfold copyToClipboard;
  destruct (truthy_str (response snap)) eqn:?; [destruct c |].

Ltac by_operation snap op :=
  let files := fresh "files" in
  let file := fresh "file" in
  let net := fresh "net" in
  let c := fresh "c" in
  destruct op as [files net ? | net | c | | ? | | | ? | ]; simpl perform;
  [ by_upload files file net | by_query snap net | by_copy snap c
  | | | | | | ].

(** X5. [handleQuery] answers 'Please enter a question.' and does
    nothing else exactly when every code unit of the question is white
    space (the empty question included), whether or not a PDF is loaded
    and whatever the backend would have replied. *)
Theorem query_blank_iff :
  forall (snap : State Metrics) (net : Outcome Metrics),
    handleQuery snap net = [setMessage enter_question]
    <-> forallb is_white (query snap) = true.
Proof.
  intros snap net. rewrite <- trim_nil. unfold handleQuery.
  destruct (trim (query snap)) as [|c q] eqn:E; simpl.
  - tauto.
  - split; [|discriminate]. intros H.
    destruct (truthy_obj (pdfFile snap)); simpl in H.
    + discriminate H.
    + exfalso. apply enter_question_not_upload_first. congruence.
Qed.

(** X6. A handler call sends at most one request and never repeats it:
    [handleQuery] posts the question exactly as typed (untrimmed) to
    /ask_pdf when the trimmed question is not empty and a PDF is loaded,
    [handleFileChange] posts the first file to /upload_pdf when it is
    declared as a PDF, and in every other case, and for every other
    operation, nothing is sent. *)
Theorem requests_sent :
  forall (snap : State Metrics) (op : Operation Metrics),
    requests (perform snap op)
    = match op with
      | op_query _ =>
          if query_accepts snap then
            [fetch (lit "http://localhost:5000" ++ lit "/ask_pdf")
               (json_query (query snap))]
          else []
      | op_upload (file :: _) _ _ =>
          if jsstring_eqb (file_type file) (lit "application/pdf") then
            [fetch (lit "http://localhost:5000" ++ lit "/upload_pdf")
               (formData_pdf file)]
          else []
      | _ => []
      end.
Proof.
  intros snap op. by_operation snap op; try reflexivity.
  - fold pdf_mime. rewrite Heqb. reflexivity.
  - fold pdf_mime. rewrite Heqb. reflexivity.
  - fold pdf_mime. rewrite Heqb. reflexivity.
  - fold pdf_mime. rewrite Heqb. reflexivity.
Qed.

(** X7. An upload with no file, or whose first file is not declared as
    'application/pdf' (whatever its name), only shows 'Please select a
    valid PDF file.': nothing is sent, the document that was loaded
    stays loaded, the dialog stays as it was and [loading] is not
    touched. *)
Theorem upload_rejected :
  forall (files : list PdfFile) (net : Outcome Metrics) (now : Z)
         (s : State Metrics),
    upload_accepts files = false ->
    let s' := run (handleFileChange files net now) s in
    requests (handleFileChange files net now) = []
    /\ message s'
       = {| msg_text := val (lit "Please select a valid PDF file.");
            msg_type := error |}
    /\ pdfFile s' = pdfFile s
    /\ showUploadModal s' = showUploadModal s
    /\ loading s' = loading s
    /\ recentPdfs s' = recentPdfs s
    /\ response s' = response s
    /\ metrics s' = metrics s
    /\ query s' = query s.
Proof.
  intros files net now s H. revert H.
  by_upload files file net; intros H; try discriminate H; repeat split.
Qed.

(** An operation that sends no request leaves [loading], the answer,
    the metrics and the recent list alone. *)
Lemma quiet_step (s : State Metrics) (op : Operation Metrics) :
  requests (perform s op) = [] ->
  loading (run (perform s op) s) = loading s
  /\ response (run (perform s op) s) = response s
  /\ metrics (run (perform s op) s) = metrics s
  /\ recentPdfs (run (perform s op) s) = recentPdfs s.
Proof.
  intros H. revert H.
  by_operation s op; simpl; intros H; try discriminate H; repeat split.
Qed.

Lemma quiet_session (ops : list (Operation Metrics)) :
  forall s : State Metrics,
    session_quiet ops s = true ->
    loading (session ops s) = loading s
    /\ response (session ops s) = response s
    /\ metrics (session ops s) = metrics s
    /\ recentPdfs (session ops s) = recentPdfs s.
Proof.
  induction ops as [|op ops IH]; intros s H; [repeat split|].
  cbn [session_quiet] in H.
  destruct (requests (perform s op)) eqn:E; [|discriminate H].
  destruct (quiet_step s op E) as (Hl & Hr & Hm & Hc).
  destruct (IH _ H) as (Hl' & Hr' & Hm' & Hc').
  change (session (op :: ops) s) with (session ops (run (perform s op) s)).
  repeat split; congruence.
Qed.

(** X8. When an accepted upload suspends on its request, [loading] is
    true, the question box and the Get Answer button are disabled, the
    dialog is closed, [pdfFile] already holds the file, an info message
    names the file, and the answer, the metrics and the recent list are
    those of before.  From there, after any sequence of operations that
    send no request (remove, a recent entry, the dialog buttons, the
    message timer, a rejected upload, ...), [loading] is still true, the
    question box and the button are still disabled, and the answer, the
    metrics and the recent list are as they were.  The message, the
    dialog and [pdfFile] are not covered, they can change meanwhile; nor
    is the reply to another request that was already in flight, which is
    not an operation of such a sequence. *)
Theorem upload_waiting :
  forall (file : PdfFile) (others : list PdfFile) (net : Outcome Metrics)
         (now : Z) (s : State Metrics),
    upload_accepts (file :: others) = true ->
    let w := run (before_fetch (handleFileChange (file :: others) net now)) s in
    (loading w = true
     /\ ask_disabled w = true
     /\ showUploadModal w = false
     /\ pdfFile w = val file
     /\ message w
        = {| msg_text := val (lit "Uploading and processing " ++ dquote
                                ++ file_name file ++ dquote ++ lit "...");
             msg_type := info |}
     /\ response w = response s
     /\ metrics w = metrics s
     /\ recentPdfs w = recentPdfs s)
    /\ forall ops : list (Operation Metrics),
         session_quiet ops w = true ->
         loading (session ops w) = true
         /\ ask_disabled (session ops w) = true
         /\ response (session ops w) = response s
         /\ metrics (session ops w) = metrics s
         /\ recentPdfs (session ops w) = recentPdfs s.
Proof.
  intros file others net now s H w. simpl in H.
  assert (Hw : loading w = true /\ response w = response s
               /\ metrics w = metrics s /\ recentPdfs w = recentPdfs s).
  { unfold w, handleFileChange. rewrite H. repeat split. }
  split.
  - unfold w, handleFileChange. rewrite H. repeat split.
  - intros ops Hq. destruct Hw as (Hl & Hr & Hm & Hc).
    destruct (quiet_session ops w Hq) as (Hl' & Hr' & Hm' & Hc').
    unfold ask_disabled. rewrite Hl', Hl, Hr', Hm', Hc'. repeat split;
      assumption.
Qed.

(** X9. When an accepted query suspends on its request, [loading] is
    true, the question box and the button are disabled, and the previous
    answer, metrics and message are all off the screen, the question and
    the document being those of before.  From there, after any sequence
    of operations that send no request, [loading] is still true, the
    question box and the button are still disabled, and no answer and no
    metrics are shown.  The message and the document are not covered,
    they can change meanwhile; nor is the reply to another request that
    was already in flight, which is not an operation of such a
    sequence. *)
Theorem query_waiting :
  forall (snap : State Metrics) (net : Outcome Metrics),
    query_accepts snap = true ->
    let w := run (before_fetch (handleQuery snap net)) snap in
    (loading w = true
     /\ ask_disabled w = true
     /\ shows_response w = false
     /\ shows_metrics w = false
     /\ shows_message w = false
     /\ query w = query snap
     /\ pdfFile w = pdfFile snap)
    /\ forall ops : list (Operation Metrics),
         session_quiet ops w = true ->
         loading (session ops w) = true
         /\ ask_disabled (session ops w) = true
         /\ shows_response (session ops w) = false
         /\ shows_metrics (session ops w) = false.
Proof.
  intros snap net H w.
  assert (Hw : loading w = true /\ response w = val []
               /\ metrics w = null).
  { revert H. unfold w.
    by_query snap net; intros H; try discriminate H; repeat split. }
  split.
  - revert H. unfold w.
    by_query snap net; intros H; try discriminate H; repeat split.
  - intros ops Hq. destruct Hw as (Hl & Hr & Hm).
    destruct (quiet_session ops w Hq) as (Hl' & Hr' & Hm' & _).
    unfold ask_disabled, shows_response, shows_metrics.
    rewrite Hl', Hl, Hr', Hr, Hm', Hm. repeat split.
Qed.

(** X10. From a render in which the Get Answer button is enabled,
    [handleQuery] never shows 'Please upload a PDF first.': it either
    rejects a blank question or sends the request. *)
Theorem enabled_button_never_asks_for_pdf :
  forall (snap : State Metrics) (net : Outcome Metrics),
    ask_disabled snap = false ->
    ~ In upload_first (notifications (handleQuery snap net))
    /\ (handleQuery snap net = [setMessage enter_question]
        \/ List.length (requests (handleQuery snap net)) = 1).
Proof.
  intros snap net H. unfold ask_disabled in H.
  apply orb_false_iff in H. destruct H as [_ H].
  apply negb_false_iff in H.
  unfold handleQuery. rewrite H.
  destruct (truthy_str (val (trim (query snap)))); simpl.
  - split; [|right; destruct net as [? | [|] ?]; reflexivity].
    destruct net as [? | [|] ?]; simpl; intros Hin;
      repeat (destruct Hin as [Hin|Hin];
              [cbv in Hin; discriminate Hin|]); exact Hin.
  - split; [|left; reflexivity].
    intros [Hin|[]]. exact (enter_question_not_upload_first Hin).
Qed.

(** X11. [loading] is one flag for both handlers, not a count of
    requests: when a query that was in flight settles while an accepted
    upload is still waiting for its reply, [loading] goes back to false
    and, the file being already in [pdfFile], the Get Answer button is
    enabled although the upload has not been answered. *)
Theorem loading_cleared_under_pending_upload :
  forall (snap s : State Metrics) (qnet unet : Outcome Metrics)
         (file : PdfFile) (others : list PdfFile) (now : Z),
    query_accepts snap = true ->
    upload_accepts (file :: others) = true ->
    let uploading :=
      run (before_fetch (handleFileChange (file :: others) unet now)) s in
    let settled := run (after_fetch (handleQuery snap qnet)) uploading in
    loading uploading = true
    /\ loading settled = false
    /\ pdfFile settled = val file
    /\ ask_disabled settled = false.
Proof.
  intros snap s qnet unet file others now Hq Hu. simpl in Hu.
  revert Hq. unfold handleFileChange. rewrite Hu.
  by_query snap qnet; intros Hq; try discriminate Hq; repeat split.
Qed.

Lemma perform_loading (snap : State Metrics) (op : Operation Metrics) :
  loading snap = false -> loading (run (perform snap op) snap) = false.
Proof.
  intros H. by_operation snap op; simpl; try exact H; reflexivity.
Qed.

Lemma perform_pdfFile (snap : State Metrics) (op : Operation Metrics) :
  pdfFile (run (perform snap op) snap) = pdfFile snap
  \/ pdfFile (run (perform snap op) snap) = null
  \/ exists f, pdfFile (run (perform snap op) snap) = val f
               /\ file_type f = pdf_mime.
Proof.
  by_operation snap op; simpl; try (left; reflexivity);
    try (right; left; reflexivity).
  - right; right. exists file. split; [reflexivity|].
    apply jsstring_eqb_eq. assumption.
  - right; right. eexists. split; reflexivity.
Qed.

(** X12. Between operations that ran to completion, [loading] is false,
    the slot of the loaded document holds [null] or a file declared as
    'application/pdf' (never [undefined], never another type), and the
    Get Answer button is enabled exactly when a document is loaded. *)
Theorem session_idle :
  forall ops : list (Operation Metrics),
    let s := session ops (initialState Metrics) in
    loading s = false
    /\ (pdfFile s = null
        \/ exists f, pdfFile s = val f /\ file_type f = pdf_mime)
    /\ ask_disabled s = negb (truthy_obj (pdfFile s)).
Proof.
  intros ops.
  assert (H : loading (session ops (initialState Metrics)) = false
              /\ (pdfFile (session ops (initialState Metrics)) = null
                  \/ exists f,
                       pdfFile (session ops (initialState Metrics)) = val f
                       /\ file_type f = pdf_mime)).
  { induction ops as [|op ops IH] using rev_ind.
    - split; [reflexivity | left; reflexivity].
    - unfold session in *. rewrite fold_left_app. simpl.
      set (s := fold_left _ ops _) in *. destruct IH as [IHl IHp]. split.
      + apply perform_loading. exact IHl.
      + destruct (perform_pdfFile s op) as [E | [E | E]].
        * rewrite E. exact IHp.
        * left. exact E.
        * right. exact E. }
  destruct H as [Hl Hp]. simpl. repeat split; try assumption.
  unfold ask_disabled. rewrite Hl. reflexivity.
Qed.

(** X13. Every message of type error or info that an operation shows
    has a non-empty text, so it is rendered and the effect schedules its
    dismissal.  (A success message of an upload is the reply's own
    [message] member and can be empty or absent.) *)
Theorem error_and_info_messages_have_text :
  forall (snap : State Metrics) (op : Operation Metrics) (m : Message),
    In m (notifications (perform snap op)) ->
    msg_type m = error \/ msg_type m = info ->
    truthy_str (msg_text m) = true.
Proof.
  intros snap op m Hin Hty.
  revert Hin. by_operation snap op; simpl; intros Hin;
    repeat (destruct Hin as [Hin|Hin];
            [subst m; simpl in Hty |- *;
             try reflexivity;
             try (destruct Hty as [Hty|Hty]; discriminate Hty)|]);
    try contradiction.
Qed.

(** X14. Only [handleQuery] writes the answer and its metrics: an
    upload (accepted or not, answered or failed), a click on a recent
    entry, the remove button, the copy button, typing and the message
    timer all leave the answer of the earlier document on screen. *)
Theorem answer_kept_by_other_operations :
  forall (snap : State Metrics) (op : Operation Metrics),
    match op with
    | op_query _ => True
    | _ =>
        response (run (perform snap op) snap) = response snap
        /\ metrics (run (perform snap op) snap) = metrics snap
    end.
Proof.
  intros snap op.
  destruct op as [files net ? | net | c | | ? | | | ? | ]; simpl perform;
    try exact I; try (split; reflexivity).
  - by_upload files file net; split; reflexivity.
  - by_copy snap c; split; reflexivity.
Qed.

(** X15. Whenever [copyToClipboard] selects a temporary textarea it
    removes it again as its last call, after a copy that returned and
    after one that threw alike, so no selection is left on the page; an
    exception is also logged to the console. *)
Theorem copy_removes_textarea :
  forall (snap : State Metrics) (c : CopyOutcome) (page : Page),
    shows_response snap = true ->
    let tr := copyToClipboard snap c in
    last tr (setLoading true) = body_removeChild
    /\ selection (page_run tr page) = None
    /\ (c = copy_threw -> In (console_error (lit "Failed to copy text: ")) tr).
Proof.
  intros snap c page H. unfold shows_response in H.
  unfold copyToClipboard. rewrite H.
  destruct c; repeat split; try discriminate.
  intros _. simpl. auto 10.
Qed.

End Behaviour.

(** ** The message timer *)

Lemma ticks_mirror (t0 : N) (es : list Tick) :
  timer_mirrors_message (ticks es (mounted t0)).
Proof.
  induction es as [|e es IH] using rev_ind.
  - left. split; reflexivity.
  - pose proof (ticks_inv t0 es) as Hinv.
    unfold ticks in *. rewrite fold_left_app. simpl.
    set (s := fold_left tick es (mounted t0)) in *.
    destruct e as [m | d]; simpl.
    + rewrite (commit_spec m Hinv).
      destruct (truthy_str (msg_text m)) eqn:E.
      * right. eexists. simpl. split; [reflexivity|].
        split; [exact E | simpl; lia].
      * left. simpl. split; [reflexivity | exact E].
    + rewrite (elapse_spec d Hinv).
      destruct IH as [[Hp Hs] | (t & Hp & Hs & Hdue)]; rewrite Hp.
      * left. simpl. split; [reflexivity | exact Hs].
      * destruct (timer_due t <=? clock s + d)%N eqn:E.
        -- left. split; reflexivity.
        -- apply N.leb_gt in E. right. exists t. simpl.
           repeat split; try assumption; lia.
Qed.

(** X16. Along any sequence of messages and waits: a dismissal timer is
    pending exactly while the shown message has a non-empty text, and it
    is due within the next 5000 ms.  So a message with an empty text,
    like the one [handleQuery] sets before its request, cancels the
    running timer and starts none. *)
Theorem timer_pending_iff_message_shown :
  forall (t0 : N) (es : list Tick),
    let s := ticks es (mounted t0) in
    (truthy_str (msg_text (shown s)) = true <-> pending s <> [])
    /\ (forall t, In t (pending s) ->
                  (clock s < timer_due t <= clock s + 5000)%N).
Proof.
  intros t0 es s.
  destruct (ticks_mirror t0 es) as [[Hp Hs] | (t & Hp & Hs & Hdue)];
    fold s in Hp, Hs; rewrite Hp, Hs.
  - split; [split; [discriminate | congruence] | intros t []].
  - fold s in Hdue. split; [split; [discriminate | reflexivity]|].
    intros u [<- | []]. exact Hdue.
Qed.

(** X17. No message outlives 5000 ms without being replaced: after any
    history, once 5000 ms or more pass with no new message, the shown
    text is empty and no timer is pending. *)
Theorem quiet_after_five_seconds :
  forall (t0 : N) (es : list Tick) (d : N),
    (5000 <= d)%N ->
    let s := ticks (es ++ [wait d]) (mounted t0) in
    truthy_str (msg_text (shown s)) = false /\ pending s = [].
Proof.
  intros t0 es d Hd s. subst s.
  pose proof (ticks_inv t0 es) as Hinv.
  pose proof (ticks_mirror t0 es) as Hmir.
  unfold ticks in *. rewrite fold_left_app.
  set (s0 := fold_left tick es (mounted t0)) in *.
  cbn [fold_left tick].
  rewrite (elapse_spec d Hinv).
  destruct Hmir as [[Hp Hs] | (t & Hp & Hs & Hdue)]; rewrite Hp.
  - simpl. split; [exact Hs | reflexivity].
  - destruct (timer_due t <=? clock s0 + d)%N eqn:E.
    + split; reflexivity.
    + apply N.leb_gt in E. lia.
Qed.

(** ** Replies *)

Section Replies.

Variable Metrics : Type.

(** X18. An accepted query answered with an ok status stores the
    reply's [response] and [metrics] as they are, shows 'Response
    generated successfully!' and releases [loading]; the question, the
    document and the recent list are untouched.  The success message does
    not depend on the body: when the reply has no [response] the message
    is shown all the same and no answer section is rendered. *)
Theorem query_answered_ok :
  forall (snap : State Metrics) (data : Data Metrics),
    query_accepts snap = true ->
    let s' := run (handleQuery snap (Replied true data)) snap in
    response s' = data_response data
    /\ metrics s' = data_metrics data
    /\ message s'
       = {| msg_text := val (lit "Response generated successfully!");
            msg_type := success |}
    /\ shows_response s' = truthy_str (data_response data)
    /\ loading s' = false
    /\ query s' = query snap
    /\ pdfFile s' = pdfFile snap
    /\ recentPdfs s' = recentPdfs snap.
Proof.
  intros snap data H. unfold query_accepts in H.
  apply andb_true_iff in H. destruct H as [Hq Hp].
  unfold handleQuery. rewrite Hq, Hp. repeat split.
Qed.

(** X19. An accepted upload answered with an ok status keeps the file
    in [pdfFile], records its name at the front of the recent list,
    closes the dialog, releases [loading] and shows the reply's own
    [message] with type success; when the reply has no [message], or an
    empty one, nothing is displayed although the upload succeeded. *)
Theorem upload_answered_ok :
  forall (file : PdfFile) (others : list PdfFile) (data : Data Metrics)
         (now : Z) (s : State Metrics),
    upload_accepts (file :: others) = true ->
    let s' := run (handleFileChange (file :: others) (Replied true data) now)
                s in
    pdfFile s' = val file
    /\ recentPdfs s' = recordSuccess now (file_name file) (recentPdfs s)
    /\ hd_error (names (recentPdfs s')) = Some (file_name file)
    /\ message s' = {| msg_text := data_message data; msg_type := success |}
    /\ shows_message s' = truthy_str (data_message data)
    /\ showUploadModal s' = false
    /\ loading s' = false.
Proof.
  intros file others data now s H. simpl in H.
  unfold handleFileChange. rewrite H. repeat split.
Qed.

(** X20. The text shown for a reply whose status is not ok is 'Error: '
    followed by the reply's [message] when that is a non-empty string,
    and by the handler's own fallback when it is absent, [null] or
    empty; for an exception it is 'Network error: ', the exception's
    message and '. Is the backend running?'.  Both handlers then show it
    with type error. *)
Theorem failure_texts :
  forall (snap : State Metrics) (file : PdfFile) (others : list PdfFile)
         (now : Z) (net : Outcome Metrics),
    query_accepts snap = true ->
    upload_accepts (file :: others) = true ->
    (forall data, net <> Replied true data) ->
    let said fallback :=
      match net with
      | Replied _ data =>
          match data_message data with
          | val (c :: m) => lit "Error: " ++ c :: m
          | _ => lit "Error: " ++ fallback
          end
      | Threw e => lit "Network error: " ++ e ++ lit ". Is the backend running?"
      end in
    message (run (handleQuery snap net) snap)
    = {| msg_text := val (said (lit "Failed to get response."));
         msg_type := error |}
    /\ message (run (handleFileChange (file :: others) net now) snap)
       = {| msg_text := val (said (lit "Failed to upload PDF."));
            msg_type := error |}.
Proof.
  intros snap file others now net Hq Hu Herr. unfold query_accepts in Hq.
  apply andb_true_iff in Hq. destruct Hq as [Hq Hp]. simpl in Hu.
  unfold handleQuery, handleFileChange. rewrite Hq, Hp, Hu.
  destruct net as [e | [|] data].
  - split; reflexivity.
  - exfalso. exact (Herr data eq_refl).
  - simpl. unfold or_else.
    destruct (data_message data) as [| | [|c m]]; split; reflexivity.
Qed.

End Replies.

(** ** Sample runs *)

Lemma upload_rejected_witness :
  let notes := {| file_name := lit "notes.pdf"; file_type := lit "text/plain";
                  file_bytes := Some [104; 105]%N |} in
  let net : Outcome BackendMetrics := Threw [] in
  upload_accepts [notes] = false
  /\ requests (handleFileChange [notes] net 0) = []
  /\ pdfFile (run (handleFileChange [notes] net 0) answered)
     = val report_pdf.
Proof.
  intros notes net.
  assert (H : upload_accepts [notes] = false) by reflexivity.
  destruct (upload_rejected [notes] net 0 answered H)
    as (Hreq & _ & Hpdf & _).
  split; [exact H | split; [exact Hreq | exact Hpdf]].
Defined.

Lemma upload_waiting_witness :
  let net : Outcome BackendMetrics := Threw (lit "Failed to fetch") in
  let w := run (before_fetch (handleFileChange [report_pdf] net 0)) answered in
  let ops : list (Operation BackendMetrics) :=
    [op_messageTimeout; op_remove; op_openModal; op_upload [] net 1] in
  upload_accepts [report_pdf] = true
  /\ session_quiet ops w = true
  /\ pdfFile w = val report_pdf
  /\ pdfFile (session ops w) = null
  /\ loading (session ops w) = true
  /\ ask_disabled (session ops w) = true
  /\ response (session ops w) = val (lit "It is about X").
Proof.
  intros net w ops.
  assert (H : upload_accepts [report_pdf] = true) by reflexivity.
  assert (Hq : session_quiet ops w = true) by reflexivity.
  destruct (upload_waiting report_pdf [] net 0 answered H)
    as ((_ & _ & _ & Hp & _) & Hlater).
  destruct (Hlater ops Hq) as (Hl & Hd & Hr & _).
  split; [exact H | split; [exact Hq | split; [exact Hp |]]].
  split; [reflexivity | split; [exact Hl | split; [exact Hd | exact Hr]]].
Defined.

Lemma query_waiting_witness :
  let net : Outcome BackendMetrics := Threw (lit "Failed to fetch") in
  let w := run (before_fetch (handleQuery answered net)) answered in
  let ops : list (Operation BackendMetrics) :=
    [op_selectEntry {| pdf_id := 1; pdf_name := lit "old.pdf" |};
     op_messageTimeout; op_remove] in
  query_accepts answered = true
  /\ session_quiet ops w = true
  /\ shows_message w = false
  /\ loading (session ops w) = true
  /\ shows_response (session ops w) = false
  /\ shows_metrics (session ops w) = false.
Proof.
  intros net w ops.
  assert (H : query_accepts answered = true) by reflexivity.
  assert (Hq : session_quiet ops w = true) by reflexivity.
  destruct (query_waiting answered net H)
    as ((_ & _ & _ & _ & Hmsg & _) & Hlater).
  destruct (Hlater ops Hq) as (Hl & _ & Hr & Hm).
  split; [exact H | split; [exact Hq | split; [exact Hmsg |]]].
  split; [exact Hl | split; [exact Hr | exact Hm]].
Defined.

Lemma enabled_button_never_asks_for_pdf_witness :
  let net : Outcome BackendMetrics := Threw (lit "Failed to fetch") in
  ask_disabled answered = false
  /\ ~ In upload_first (notifications (handleQuery answered net))
  /\ List.length (requests (handleQuery answered net)) = 1.
Proof.
  intros net.
  assert (H : ask_disabled answered = false) by reflexivity.
  destruct (enabled_button_never_asks_for_pdf answered net H) as (Hno & _).
  split; [exact H | split; [exact Hno | reflexivity]].
Defined.

Lemma loading_cleared_under_pending_upload_witness :
  let qnet : Outcome BackendMetrics := Threw (lit "Failed to fetch") in
  let unet : Outcome BackendMetrics := Threw (lit "Failed to fetch") in
  let other := {| file_name := lit "other.pdf"; file_type := pdf_mime;
                  file_bytes := Some [37; 80; 68; 70]%N |} in
  let asking := run (before_fetch (handleQuery answered qnet)) answered in
  let uploading :=
    run (before_fetch (handleFileChange [other] unet 0)) asking in
  let settled := run (after_fetch (handleQuery answered qnet)) uploading in
  query_accepts answered = true
  /\ upload_accepts [other] = true
  /\ loading settled = false
  /\ ask_disabled settled = false.
Proof.
  intros qnet unet other asking uploading settled.
  assert (Hq : query_accepts answered = true) by reflexivity.
  assert (Hu : upload_accepts [other] = true) by reflexivity.
  destruct (loading_cleared_under_pending_upload answered asking qnet unet
              other [] 0 Hq Hu) as (_ & Hl & _ & Hd).
  split; [exact Hq | split; [exact Hu | split; [exact Hl | exact Hd]]].
Defined.

Lemma error_and_info_messages_have_text_witness :
  let refused : Outcome BackendMetrics :=
    Replied false {| data_message := val []; data_response := undefined;
                     data_metrics := undefined |} in
  let m := {| msg_text := val (lit "Error: Failed to get response.");
              msg_type := error |} in
  In m (notifications (perform answered (op_query refused)))
  /\ (msg_type m = error \/ msg_type m = info)
  /\ truthy_str (msg_text m) = true.
Proof.
  intros refused m.
  assert (Hin : In m (notifications (perform answered (op_query refused)))).
  { simpl. right. left. reflexivity. }
  assert (Hty : msg_type m = error \/ msg_type m = info)
    by (left; reflexivity).
  split; [exact Hin | split; [exact Hty |]].
  exact (error_and_info_messages_have_text answered (op_query refused) m
           Hin Hty).
Defined.

Lemma copy_removes_textarea_witness :
  let page := {| selection := None; clipboard := val (lit "old") |} in
  shows_response answered = true
  /\ selection (page_run (copyToClipboard answered copy_threw) page) = None
  /\ clipboard (page_run (copyToClipboard answered copy_threw) page)
     = val (lit "old").
Proof.
  intros page.
  assert (H : shows_response answered = true) by reflexivity.
  destruct (copy_removes_textarea answered copy_threw page H)
    as (_ & Hsel & _).
  split; [exact H | split; [exact Hsel | reflexivity]].
Defined.

Lemma quiet_after_five_seconds_witness :
  let saved := {| msg_text := val (lit "indexed"); msg_type := success |} in
  let s := ticks ([notify saved; wait 1200; notify saved] ++ [wait 5000])
             (mounted 0) in
  (5000 <= 5000)%N
  /\ truthy_str (msg_text (shown s)) = false /\ pending s = [].
Proof.
  intros saved s.
  assert (H : (5000 <= 5000)%N) by discriminate.
  split; [exact H |].
  exact (quiet_after_five_seconds 0 [notify saved; wait 1200; notify saved]
           H).
Defined.

Lemma query_answered_ok_witness :
  let bare : Data BackendMetrics :=
    {| data_message := undefined; data_response := undefined;
       data_metrics := undefined |} in
  let s' := run (handleQuery answered (Replied true bare)) answered in
  query_accepts answered = true
  /\ msg_type (message s') = success
  /\ shows_response s' = false.
Proof.
  intros bare s'.
  assert (H : query_accepts answered = true) by reflexivity.
  destruct (query_answered_ok answered bare H) as (_ & _ & Hm & Hs & _).
  split; [exact H | split; [exact (f_equal msg_type Hm) | exact Hs]].
Defined.

Lemma upload_answered_ok_witness :
  let bare : Data BackendMetrics :=
    {| data_message := undefined; data_response := undefined;
       data_metrics := undefined |} in
  let s' := run (handleFileChange [report_pdf] (Replied true bare) 9)
              (initialState BackendMetrics) in
  upload_accepts [report_pdf] = true
  /\ pdfFile s' = val report_pdf
  /\ names (recentPdfs s') = [lit "report.pdf"]
  /\ shows_message s' = false.
Proof.
  intros bare s'.
  assert (H : upload_accepts [report_pdf] = true) by reflexivity.
  destruct (upload_answered_ok report_pdf [] bare 9
              (initialState BackendMetrics) H)
    as (Hp & Hr & _ & _ & Hs & _).
  split; [exact H | split; [exact Hp | split; [| exact Hs]]].
  exact (f_equal (@names) Hr).
Defined.

Lemma failure_texts_witness :
  let empty : Outcome BackendMetrics :=
    Replied false {| data_message := val []; data_response := undefined;
                     data_metrics := undefined |} in
  query_accepts answered = true
  /\ upload_accepts [report_pdf] = true
  /\ message (run (handleQuery answered empty) answered)
     = {| msg_text := val (lit "Error: Failed to get response.");
          msg_type := error |}
  /\ message (run (handleFileChange [report_pdf] empty 0) answered)
     = {| msg_text := val (lit "Error: Failed to upload PDF.");
          msg_type := error |}.
Proof.
  intros empty.
  assert (Hq : query_accepts answered = true) by reflexivity.
  assert (Hu : upload_accepts [report_pdf] = true) by reflexivity.
  assert (He : forall data, empty <> Replied true data)
    by (intros data; discriminate).
  destruct (failure_texts answered report_pdf [] 0 Hq Hu He) as [H1 H2].
  split; [exact Hq | split; [exact Hu | split; [exact H1 | exact H2]]].
Defined.
